(** * capstone-one: the mental-health chat pipeline and its two front ends

    A shallow embedding of [agent.py] (the command-line agent) and
    [server.py] (the HTTP API), together with a model of the retrieval and
    generation pipeline [rag.MentalHealthRAG] that both of them call.

    Conventions of the embedding.
    - A Python [str] is the list of its Unicode code points ([list N]).
    - A Python [dict] keyed by session ids is a [gmap].
    - The wall clock ([datetime.now()], [time.time()]) and [uuid.uuid4()] are
      oracles indexed by the number of reads made so far; the read counters
      are threaded through every operation in a [World].
    - An exception that leaves a function is a value of a sum type; the
      mutations made before it was raised are kept, as in Python.
    - Console output ([print], [logger]) has no influence on the state or on
      the returned values and is left out. *)

From Stdlib Require Import ZArith NArith Lia Ascii String DecimalString Sorted.
From stdpp Require Import base option list gmap sorting.

Local Open Scope Z_scope.

(* ===================================================================== *)
(** ** Python strings *)
(* ===================================================================== *)

Module PyStr.

(** A Python [str]: a sequence of Unicode code points. *)
Abbreviation str := (list N).

(** A string literal of the source (ASCII code points). *)
Definition lit (s : string) : str := N_of_ascii <$> list_ascii_of_string s.

(** [c.isspace()] for one code point: the characters Python's [str.strip()]
    removes (Unicode White_Space together with the separators
    U+001C..U+001F). *)
Definition py_isspace (c : N) : bool :=
  ((9 <=? c) && (c <=? 13) || (28 <=? c) && (c <=? 32)
   || (c =? 133) || (c =? 160) || (c =? 5760)
   || (8192 <=? c) && (c <=? 8202)
   || (c =? 8232) || (c =? 8233) || (c =? 8239) || (c =? 8287)
   || (c =? 12288))%N.

(** [s.lstrip()] *)
Fixpoint lstrip (s : str) : str :=
  match s with
  | [] => []
  | c :: s' => if py_isspace c then lstrip s' else s
  end.

(** [s.rstrip()] *)
Fixpoint rstrip (s : str) : str :=
  match s with
  | [] => []
  | c :: s' =>
      match rstrip s' with
      | [] => if py_isspace c then [] else [c]
      | r => c :: r
      end
  end.

(** [s.strip()] *)
Definition strip (s : str) : str := rstrip (lstrip s).

(** Truth value of a string: [bool(s)], false exactly for [""]. *)
Definition truthy (s : str) : bool :=
  match s with [] => false | _ :: _ => true end.

(** The input is empty or made of whitespace only. *)
Definition blank (s : str) : bool := forallb py_isspace s.

(** [s.startswith(p)] *)
Fixpoint startswith (p s : str) : bool :=
  match p, s with
  | [], _ => true
  | _ :: _, [] => false
  | a :: p', b :: s' => (a =? b)%N && startswith p' s'
  end.

(** [sub in s] *)
Fixpoint contains (sub s : str) : bool :=
  startswith sub s
  || match s with [] => false | _ :: s' => contains sub s' end.

(** [str(n)] for an integer [n]. *)
Definition str_of_int (n : Z) : str :=
  lit (NilZero.string_of_int (Z.to_int n)).

(** The newline character. *)
Definition nl : str := [10%N].

End PyStr.
Import PyStr.


(* ===================================================================== *)
(** ** The environment: wall clock, identifiers, the RAG pipeline *)
(* ===================================================================== *)

(** [str(e)] of a raised exception. *)
Record PyException := { exc_str : str }.

(** The three values the code stores under ["role"]. *)
Inductive Role := user | assistant | system.

#[global] Instance Role_eq_dec : EqDecision Role.
Proof. solve_decision. Defined.

Module Rag.

(** A document handed to [add_knowledge_documents]. *)
Record KnowledgeDocument := {
  text : str;
  source : str;
  doc_type : str;
  metadata : list (str * str)
}.

(** The dictionary returned by [generate_response]. *)
Record ResponseData := {
  response : str;
  is_mental_health : bool
}.

(** Modelled from the spec: [rag.MentalHealthRAG] is imported by both front
    ends but its module is not part of the sources.  Its state is the
    content of the knowledge store; [queries] is the log of the queries
    that were passed to [generate_response], oldest first. *)
Record MentalHealthRAG := {
  knowledge : list KnowledgeDocument;
  queries : list str
}.

(** Modelled from the spec: [MentalHealthRAG(groq_api_key)] starts with an
    empty knowledge store. *)
Definition new : MentalHealthRAG := {| knowledge := []; queries := [] |}.

(** Modelled from the spec: [add_knowledge_documents] is the KnowledgeStore's
    [ingest]; every document becomes a new entry, duplicates included. *)
Definition add_knowledge_documents (docs : list KnowledgeDocument)
    (rag : MentalHealthRAG) : MentalHealthRAG :=
  {| knowledge := knowledge rag ++ docs; queries := queries rag |}.

End Rag.

(** What the program reads from outside.  [clock n] is the wall clock at its
    [n]-th read, in microseconds; [uuid4 n] is the [n]-th identifier drawn;
    [generate kb q] is what [generate_response(q)] does on a knowledge store
    holding [kb]: it returns the response dictionary or raises. *)
Class Oracles := {
  clock : nat -> Z;
  uuid4 : nat -> str;
  generate : list Rag.KnowledgeDocument -> str -> PyException + Rag.ResponseData
}.

(** How many times the clock was read and how many identifiers were drawn. *)
Record World := { clock_reads : nat; uuid_draws : nat }.

Definition boot : World := {| clock_reads := 0; uuid_draws := 0 |}.

Section Environment.
Context `{!Oracles}.

(** [datetime.now().isoformat()]: the timestamp is kept as the clock value
    it renders. *)
Definition datetime_now (w : World) : Z * World :=
  (clock (clock_reads w),
   {| clock_reads := S (clock_reads w); uuid_draws := uuid_draws w |}).

(** [time.time()] *)
Definition time_time (w : World) : Z * World := datetime_now w.

(** [str(uuid.uuid4())] *)
Definition uuid_uuid4 (w : World) : str * World :=
  (uuid4 (uuid_draws w),
   {| clock_reads := clock_reads w; uuid_draws := S (uuid_draws w) |}).

(** [self.rag_system.generate_response(query)] *)
Definition generate_response (query : str) (rag : Rag.MentalHealthRAG)
    : (PyException + Rag.ResponseData) * Rag.MentalHealthRAG :=
  (generate (Rag.knowledge rag) query,
   {| Rag.knowledge := Rag.knowledge rag;
      Rag.queries := Rag.queries rag ++ [query] |}).

End Environment.

(** [int(t)] for a clock value in microseconds: whole seconds, truncated. *)
Definition int_seconds (t : Z) : Z := Z.quot t 1000000.

(** [l[i:]] for a Python list and an integer [i]. *)
Definition py_slice_from {A : Type} (i : Z) (l : list A) : list A :=
  if i <? 0
  then drop (Z.to_nat (Z.max 0 (Z.of_nat (length l) + i))) l
  else drop (Z.to_nat i) l.

(** [x in l] for a list of strings. *)
Definition py_in (x : str) (l : list str) : bool := bool_decide (x ∈ l).

(** [s.lower()] on the ASCII letters.  The commands compared with its result
    are ASCII words without the letter k, and no other code point lowers to
    one of their letters, so the comparison comes out as in Python. *)
Definition lower (s : str) : str :=
  (fun c => if ((65 <=? c) && (c <=? 90))%N then (c + 32)%N else c) <$> s.

(* ===================================================================== *)
(** ** agent.py: the command-line agent *)
(* ===================================================================== *)

Module Agent.

(** One entry of [conversation_history]. *)
Record Turn := {
  role : Role;
  message : str;
  timestamp : Z;
  session_id : option str
}.

(** The attributes of a [MentalHealthAgent]. *)
Record MentalHealthAgent := {
  groq_api_key : str;
  rag_system : Rag.MentalHealthRAG;
  conversation_history : list Turn;
  current_session_id : option str;
  user_name : str
}.

Definition with_history (h : list Turn) (self : MentalHealthAgent) :=
  {| groq_api_key := groq_api_key self;
     rag_system := rag_system self;
     conversation_history := h;
     current_session_id := current_session_id self;
     user_name := user_name self |}.

Definition with_session (sid : option str) (self : MentalHealthAgent) :=
  {| groq_api_key := groq_api_key self;
     rag_system := rag_system self;
     conversation_history := conversation_history self;
     current_session_id := sid;
     user_name := user_name self |}.

Definition with_rag (rag : Rag.MentalHealthRAG) (self : MentalHealthAgent) :=
  {| groq_api_key := groq_api_key self;
     rag_system := rag;
     conversation_history := conversation_history self;
     current_session_id := current_session_id self;
     user_name := user_name self |}.

(** Who said what, in the order of the history. *)
Definition transcript (h : list Turn) : list (Role * str) :=
  (fun t => (role t, message t)) <$> h.

Definition doc (t s ty : string) (md : list (string * string))
    : Rag.KnowledgeDocument :=
  {| Rag.text := lit t; Rag.source := lit s; Rag.doc_type := lit ty;
     Rag.metadata := (fun kv => (lit kv.1, lit kv.2)) <$> md |}.

Definition sample_documents : list Rag.KnowledgeDocument := [
  doc "Depression is treatable with therapy (CBT, IPT) and medication. Symptoms include persistent sadness, loss of interest, sleep/appetite changes, low energy, and poor concentration."
      "WHO" "condition"
      [("condition", "depression"); ("severity", "general")];
  doc "Anxiety disorders involve excessive fear/worry. Treatment includes CBT, exposure therapy, relaxation techniques, and sometimes medication."
      "APA" "condition"
      [("condition", "anxiety"); ("severity", "general")];
  doc "CBT helps identify and change negative thought patterns. Effective for depression, anxiety, eating disorders, and other mental health conditions."
      "NIMH" "treatment"
      [("therapy", "CBT"); ("conditions", "depression, anxiety")];
  doc "For mental health crisis, call/text 988 (Suicide & Crisis Lifeline) for free, confidential support 24/7."
      "988 Lifeline" "resource"
      [("resource", "crisis"); ("availability", "24/7")];
  doc "Mindfulness meditation reduces stress and improves emotional regulation. Practice 5-10 minutes daily focusing on breath."
      "MBSR" "technique"
      [("technique", "mindfulness"); ("duration", "5-10min")];
  doc "Self-care includes adequate sleep, exercise, nutrition, social connections, and enjoyable activities for mental wellbeing."
      "MHA" "prevention"
      [("category", "self_care"); ("components", "sleep, exercise, nutrition")]
]%string.

Definition _initialize_knowledge_base (self : MentalHealthAgent)
    : MentalHealthAgent :=
  with_rag (Rag.add_knowledge_documents sample_documents (rag_system self)) self.

Definition __init__ (groq_api_key : str) : MentalHealthAgent :=
  _initialize_knowledge_base
    {| groq_api_key := groq_api_key;
       rag_system := Rag.new;
       conversation_history := [];
       current_session_id := None;
       user_name := lit "User" |}.

Definition greeting : str :=
  lit "Hi there! I'm your mental health assistant. How can I support you today?".

Definition please_type : str := lit "Please type something to chat with me.".

Section Methods.
Context `{!Oracles}.

Definition _add_to_history (role : Role) (message : str)
    (st : World * MentalHealthAgent) : World * MentalHealthAgent :=
  let '(timestamp, w) := datetime_now st.1 in
  (w, with_history
        (conversation_history st.2
           ++ [ {| role := role; message := message; timestamp := timestamp;
                   session_id := current_session_id st.2 |} ])
        st.2).

Definition start_new_chat (st : World * MentalHealthAgent)
    : World * MentalHealthAgent :=
  let '(t, w) := time_time st.1 in
  let self :=
    with_session (Some (lit "session_" ++ str_of_int (int_seconds t))) st.2 in
  let self := with_history [] self in
  _add_to_history system greeting (w, self).

Definition speaker (r : Role) : str :=
  if decide (r = user) then lit "USER" else lit "ASSISTANT".

(** The line added to the context for one message: [f"{speaker}: {msg['message']}\n"]. *)
Definition render_turn (msg : Turn) : str :=
  speaker (role msg) ++ lit ": " ++ message msg ++ nl.

Definition _get_conversation_context (max_messages : Z)
    (self : MentalHealthAgent) : str :=
  match conversation_history self with
  | [] => []
  | _ :: _ =>
      let recent_messages :=
        filter (fun msg => role msg ∈ [user; assistant])
               (py_slice_from (- max_messages) (conversation_history self)) in
      foldl (fun context msg => context ++ render_turn msg)
            (lit "Recent conversation context:" ++ nl)
            recent_messages
  end.

(** The query sent to the pipeline for an input, given the history that
    already holds the input's own turn. *)
Definition contextual_query (user_input : str) (self : MentalHealthAgent)
    : str :=
  let conversation_context := _get_conversation_context 10 self in
  if truthy conversation_context
  then conversation_context ++ nl ++ lit "Current query: " ++ user_input
  else user_input.

Definition process_message (user_input : str) (st : World * MentalHealthAgent)
    : (PyException + str) * (World * MentalHealthAgent) :=
  if negb (truthy (strip user_input)) then (inr please_type, st)
  else
    let st1 := _add_to_history user user_input st in
    let query := contextual_query user_input st1.2 in
    let '(start_time, w) := time_time st1.1 in
    let '(r, rag) := generate_response query (rag_system st1.2) in
    let self := with_rag rag st1.2 in
    match r with
    | inl e => (inl e, (w, self))
    | inr response_data =>
        let '(end_time, w) := time_time w in
        let response := Rag.response response_data in
        (inr response, _add_to_history assistant response (w, self))
    end.

Definition clear_history (st : World * MentalHealthAgent)
    : World * MentalHealthAgent :=
  (st.1, with_history [] st.2).

(** [show_help], [show_history], [show_about] and [show_stats] only print. *)
Definition show_help (st : World * MentalHealthAgent) := st.
Definition show_history (st : World * MentalHealthAgent) := st.
Definition show_about (st : World * MentalHealthAgent) := st.
Definition show_stats (st : World * MentalHealthAgent) := st.

(** The dictionary [save_conversation] dumps.  [export_file] is the file name
    given, or the clock value the default name is formatted from. *)
Record Export := {
  export_file : str + Z;
  export_session_id : option str;
  export_created_at : Z;
  export_messages : list Turn
}.

Definition save_conversation (filename : option str)
    (st : World * MentalHealthAgent)
    : option Export * (World * MentalHealthAgent) :=
  match conversation_history st.2 with
  | [] => (None, st)
  | _ :: _ =>
      let '(file, w) :=
        match filename with
        | Some f => if truthy f then (inl f, st.1)
                    else let '(t, w) := datetime_now st.1 in (inr t, w)
        | None => let '(t, w) := datetime_now st.1 in (inr t, w)
        end in
      let '(created, w) := datetime_now w in
      (Some {| export_file := file;
               export_session_id := current_session_id st.2;
               export_created_at := created;
               export_messages := conversation_history st.2 |},
       (w, st.2))
  end.

(** One turn of the loop of [run]: the line read by [input()] is handled
    and the loop either goes on or is left. *)
Inductive Outcome := Continue | Break.

Definition run_line (line : str) (st : World * MentalHealthAgent)
    : Outcome * (World * MentalHealthAgent) :=
  let user_input := strip line in
  if startswith (lit "/") user_input then
    let command := lower (drop 1 user_input) in
    if py_in command [lit "exit"; lit "quit"] then (Break, st)
    else if py_in command [lit "new"; lit "reset"]
      then (Continue, start_new_chat st)
    else if py_in command [lit "help"; lit "?"] then (Continue, show_help st)
    else if py_in command [lit "history"; lit "hist"]
      then (Continue, show_history st)
    else if py_in command [lit "clear"; lit "cls"]
      then (Continue, clear_history st)
    else if py_in command [lit "save"; lit "export"]
      then (Continue, (save_conversation None st).2)
    else if py_in command [lit "about"; lit "info"]
      then (Continue, show_about st)
    else if py_in command [lit "stats"; lit "status"]
      then (Continue, show_stats st)
    else (Continue, st)
  else (Continue, (process_message user_input st).2).

Fixpoint run_loop (lines : list str) (st : World * MentalHealthAgent)
    : World * MentalHealthAgent :=
  match lines with
  | [] => st
  | line :: rest =>
      match run_line line st with
      | (Break, st') => st'
      | (Continue, st') => run_loop rest st'
      end
  end.

(** [run()] on the lines typed by the user. *)
Definition run (lines : list str) (st : World * MentalHealthAgent)
    : World * MentalHealthAgent :=
  run_loop lines (start_new_chat st).

End Methods.
End Agent.

(* ===================================================================== *)
(** ** server.py: the HTTP API *)
(* ===================================================================== *)

Module Server.

(** One entry of a session's ["messages"] list. *)
Record Message := {
  role : Role;
  message : str;
  timestamp : Z
}.

(** A value of the [sessions] dictionary. *)
Record Session := {
  created_at : Z;
  messages : list Message
}.

(** The request body of [POST /chat]. *)
Record ChatMessage := {
  cm_message : str;
  cm_session_id : option str
}.

(** The response model of [POST /chat]; [response_time] is in microseconds
    and [chat_timestamp] is its field [timestamp]. *)
Record ChatResponse := {
  response : str;
  session_id : str;
  is_mental_health : bool;
  response_time : Z;
  chat_timestamp : Z
}.

Record HTTPException := {
  status_code : Z;
  detail : str
}.

(** What [GET /sessions/{session_id}] returns: the session's own entries
    together with its id. *)
Record SessionView := {
  view_session_id : str;
  view_created_at : Z;
  view_messages : list Message
}.

(** The attributes of a [MentalHealthServer] once [startup_event] has run:
    [rag_system] is set before the first request is served. *)
Record MentalHealthServer := {
  groq_api_key : str;
  rag_system : Rag.MentalHealthRAG;
  sessions : gmap str Session
}.

(** Who said what, in the order of the messages of a session. *)
Definition transcript (l : list Message) : list (Role * str) :=
  (fun m => (role m, message m)) <$> l.

Definition with_sessions (m : gmap str Session) (self : MentalHealthServer) :=
  {| groq_api_key := groq_api_key self;
     rag_system := rag_system self;
     sessions := m |}.

Definition with_rag (rag : Rag.MentalHealthRAG) (self : MentalHealthServer) :=
  {| groq_api_key := groq_api_key self;
     rag_system := rag;
     sessions := sessions self |}.

Definition sample_documents : list Rag.KnowledgeDocument := [
  Agent.doc "Depression is treatable with therapy and medication. Symptoms include persistent sadness, loss of interest, and low energy."
      "WHO" "condition" [("condition", "depression")];
  Agent.doc "Anxiety disorders involve excessive fear/worry. Treatment includes CBT, exposure therapy, and relaxation techniques."
      "APA" "condition" [("condition", "anxiety")];
  Agent.doc "For mental health crisis, call/text 988 for free, confidential support 24/7."
      "988 Lifeline" "resource" [("resource", "crisis")]
]%string.

(** [MentalHealthServer()] followed by [startup_event]. *)
Definition startup (groq_api_key : str) : MentalHealthServer :=
  {| groq_api_key := groq_api_key;
     rag_system := Rag.add_knowledge_documents sample_documents Rag.new;
     sessions := ∅ |}.

(** [KeyError(key)] *)
Definition KeyError (key : str) : PyException :=
  {| exc_str := lit "'" ++ key ++ lit "'" |}.

Section Endpoints.
Context `{!Oracles}.

(** [self.sessions[session_id]["messages"].append({..., "timestamp": now})] *)
Definition append_message (session_id : str) (r : Role) (text : str)
    (st : World * MentalHealthServer)
    : (PyException + unit) * (World * MentalHealthServer) :=
  match sessions st.2 !! session_id with
  | None => (inl (KeyError session_id), st)
  | Some s =>
      let '(now, w) := datetime_now st.1 in
      let s' := {| created_at := created_at s;
                   messages := messages s
                     ++ [ {| role := r; message := text; timestamp := now |} ] |} in
      (inr (), (w, with_sessions (<[session_id := s']> (sessions st.2)) st.2))
  end.

(** [chat_message.session_id or str(uuid.uuid4())]: an identifier is drawn
    only when none was sent (or an empty one). *)
Definition session_id_or_new (chat_message : ChatMessage) (w : World)
    : str * World :=
  match cm_session_id chat_message with
  | Some s => if truthy s then (s, w) else uuid_uuid4 w
  | None => uuid_uuid4 w
  end.

(** The body of the [try] block of [chat_endpoint]. *)
Definition chat_body (chat_message : ChatMessage)
    (st : World * MentalHealthServer)
    : (PyException + ChatResponse) * (World * MentalHealthServer) :=
  let '(start_time, w) := time_time st.1 in
  let '(session_id, w) := session_id_or_new chat_message w in
  let '(w, self) :=
    match sessions st.2 !! session_id with
    | Some _ => (w, st.2)
    | None =>
        let '(now, w) := datetime_now w in
        (w, with_sessions
              (<[session_id := {| created_at := now; messages := [] |}]>
                 (sessions st.2))
              st.2)
    end in
  match append_message session_id user (cm_message chat_message) (w, self) with
  | (inl e, st1) => (inl e, st1)
  | (inr _, st1) =>
      let '(r, rag) :=
        generate_response (cm_message chat_message) (rag_system st1.2) in
      let st2 := (st1.1, with_rag rag st1.2) in
      match r with
      | inl e => (inl e, st2)
      | inr response_data =>
          match append_message session_id assistant
                  (Rag.response response_data) st2 with
          | (inl e, st3) => (inl e, st3)
          | (inr _, st3) =>
              let '(end_time, w) := time_time st3.1 in
              let response_time := end_time - start_time in
              let '(now, w) := datetime_now w in
              (inr {| response := Rag.response response_data;
                      session_id := session_id;
                      is_mental_health := Rag.is_mental_health response_data;
                      response_time := response_time;
                      chat_timestamp := now |},
               (w, st3.2))
          end
      end
  end.

(** [POST /chat]: any exception of the body is turned into a 500. *)
Definition chat_endpoint (chat_message : ChatMessage)
    (st : World * MentalHealthServer)
    : (HTTPException + ChatResponse) * (World * MentalHealthServer) :=
  match chat_body chat_message st with
  | (inr r, st') => (inr r, st')
  | (inl e, st') =>
      (inl {| status_code := 500;
              detail := lit "Error processing message: " ++ exc_str e |},
       st')
  end.

Definition not_found (session_id : str) : HTTPException :=
  {| status_code := 404;
     detail := lit "Session " ++ session_id ++ lit " not found" |}.

(** [GET /sessions/{session_id}] *)
Definition get_session (session_id : str) (st : World * MentalHealthServer)
    : (HTTPException + SessionView) * (World * MentalHealthServer) :=
  match sessions st.2 !! session_id with
  | None => (inl (not_found session_id), st)
  | Some s =>
      (inr {| view_session_id := session_id;
              view_created_at := created_at s;
              view_messages := messages s |},
       st)
  end.

(** [DELETE /sessions/{session_id}]; the value returned on success is the
    text under ["message"]. *)
Definition delete_session (session_id : str) (st : World * MentalHealthServer)
    : (HTTPException + str) * (World * MentalHealthServer) :=
  match sessions st.2 !! session_id with
  | None => (inl (not_found session_id), st)
  | Some _ =>
      (inr (lit "Session " ++ session_id ++ lit " deleted successfully"),
       (st.1, with_sessions (delete session_id (sessions st.2)) st.2))
  end.

(** The requests that change or read the session dictionary. *)
Inductive Request :=
| Chat (chat_message : ChatMessage)
| GetSession (session_id : str)
| DeleteSession (session_id : str).

Definition serve (req : Request) (st : World * MentalHealthServer)
    : World * MentalHealthServer :=
  match req with
  | Chat m => (chat_endpoint m st).2
  | GetSession i => (get_session i st).2
  | DeleteSession i => (delete_session i st).2
  end.

(** The state after a sequence of requests handled one after the other. *)
Definition serve_all (reqs : list Request) (st : World * MentalHealthServer)
    : World * MentalHealthServer :=
  foldl (fun st req => serve req st) st reqs.

End Endpoints.
End Server.

(* ===================================================================== *)
(** ** Timestamps and the clock *)
(* ===================================================================== *)

Section Timing.
Context `{!Oracles}.

(** [t] is the value of one of the first [n] reads of the clock. *)
Definition read_before (n : nat) (t : Z) : Prop :=
  exists i, (i < n)%nat /\ t = clock i.

(** The timestamps [ts] are strictly increasing and were all read among the
    first [n] reads of the clock. *)
Definition well_timed (n : nat) (ts : list Z) : Prop :=
  StronglySorted Z.lt ts /\ Forall (read_before n) ts.

Definition agent_timed (st : World * Agent.MentalHealthAgent) : Prop :=
  well_timed (clock_reads st.1)
    (Agent.timestamp <$> Agent.conversation_history st.2).

Definition server_timed (st : World * Server.MentalHealthServer) : Prop :=
  forall sid s, Server.sessions st.2 !! sid = Some s ->
    well_timed (clock_reads st.1) (Server.timestamp <$> Server.messages s).

End Timing.

(* ===================================================================== *)
(** ** The generation pipeline behind [generate_response] *)
(* ===================================================================== *)

Module Pipeline.

(** Modelled from the spec: the DomainClassifier's verdict; the crisis signal
    is a designated sub-case of an in-domain query. *)
Inductive Classification := OutOfDomain | InDomain | Crisis.

Definition in_domain (c : Classification) : bool :=
  match c with OutOfDomain => false | InDomain | Crisis => true end.

Definition is_crisis (c : Classification) : bool :=
  match c with Crisis => true | OutOfDomain | InDomain => false end.

(** Modelled from the spec: a retrieved document with its relevance score. *)
Record RetrievedSnippet := {
  document : Rag.KnowledgeDocument;
  score : Z
}.

(** Modelled from the spec: the capabilities the pipeline consumes and its
    fixed configuration.  [complete] is the completion capability, [None]
    when it raises; [nearest] is the index's nearest-neighbour search;
    [crisis_resource] is the fixed crisis-resource text and
    [fallback_message] the fixed apology. *)
Class Capabilities := {
  classify : str -> Classification;
  nearest : list Rag.KnowledgeDocument -> str -> nat -> list RetrievedSnippet;
  complete : str -> option str;
  top_k : nat;
  crisis_resource : str;
  fallback_message : str
}.

Section Generation.
Context `{!Capabilities}.

(** Modelled from the spec: KnowledgeStore.retrieve returns at most [k]
    snippets, an empty store none. *)
Definition retrieve (kb : list Rag.KnowledgeDocument) (query : str) (k : nat)
    : list RetrievedSnippet :=
  match kb with
  | [] => []
  | _ :: _ => take k (nearest kb query k)
  end.

(** Modelled from the spec: an attributed fact block, source and text. *)
Definition render_snippet (s : RetrievedSnippet) : str :=
  lit "[" ++ Rag.source (document s) ++ lit "] " ++ Rag.text (document s) ++ nl.

(** Modelled from the spec: ContextAssembler.build without a history of its
    own (the agent puts the conversation context into the query); the
    knowledge section is left out when nothing was retrieved. *)
Definition build (snippets : list RetrievedSnippet) (query : str) : str :=
  match snippets with
  | [] => query
  | _ :: _ => concat (render_snippet <$> snippets) ++ nl ++ query
  end.

(** Modelled from the spec: the prompt sent for a query; retrieval is skipped
    for an out-of-domain query. *)
Definition prompt_of (kb : list Rag.KnowledgeDocument) (query : str) : str :=
  build (if in_domain (classify query) then retrieve kb query top_k else [])
        query.

(** Modelled from the spec: post-processing rule 1, the crisis-resource text
    is added to a crisis answer that lacks it. *)
Definition inject_crisis (c : Classification) (raw : str) : str :=
  if is_crisis c && negb (contains crisis_resource raw)
  then raw ++ nl ++ nl ++ crisis_resource
  else raw.

(** Modelled from the spec: post-processing rules 1 and 2, in that order. *)
Definition postprocess (c : Classification) (raw : str) : str :=
  strip (inject_crisis c raw).

(** Modelled from the spec: [MentalHealthRAG.generate_response], the pipeline
    classify, retrieve, assemble, complete, post-process; a failing
    completion yields the fixed fallback message. *)
Definition generate_response (kb : list Rag.KnowledgeDocument) (query : str)
    : Rag.ResponseData :=
  let c := classify query in
  match complete (prompt_of kb query) with
  | None =>
      {| Rag.response := fallback_message;
         Rag.is_mental_health := in_domain c |}
  | Some raw =>
      {| Rag.response := postprocess c raw;
         Rag.is_mental_health := in_domain c |}
  end.

End Generation.

(** The environment in which both front ends run on this pipeline. *)
Definition oracles `{!Capabilities} (clk : nat -> Z) (ids : nat -> str)
    : Oracles :=
  {| clock := clk; uuid4 := ids;
     generate := fun kb query => inr (generate_response kb query) |}.

End Pipeline.

(* ===================================================================== *)
(** ** Concrete environments used in the examples *)
(* ===================================================================== *)

Module Demo.

(** A pipeline whose model never mentions the hotline and fails on the
    prompt ["down"]. *)
Definition caps : Pipeline.Capabilities :=
  {| Pipeline.classify := fun q =>
       if contains (lit "hurt myself") q then Pipeline.Crisis
       else if contains (lit "anxious") q then Pipeline.InDomain
       else Pipeline.OutOfDomain;
     Pipeline.nearest := fun kb _ _ =>
       (fun d => {| Pipeline.document := d; Pipeline.score := 0 |}) <$> kb;
     Pipeline.complete := fun p =>
       if contains (lit "down") p then None else Some (lit "  I hear you. ");
     Pipeline.top_k := 3;
     Pipeline.crisis_resource := lit "Call or text 988 (Suicide & Crisis Lifeline).";
     Pipeline.fallback_message := lit "I'm sorry, I can't answer right now." |}.

(** A clock that advances by one second at every read. *)
Definition ticking : nat -> Z := fun n => 1730714400000000 + 1000000 * Z.of_nat n.

(** A clock set back by an hour after its second read. *)
Definition set_back : nat -> Z :=
  fun n => if (n <? 2)%nat then ticking n else ticking n - 3600000000.

Definition ids : nat -> str := fun n => lit "uuid-" ++ str_of_int (Z.of_nat n).

Definition env : Oracles := @Pipeline.oracles caps ticking ids.
Definition env_set_back : Oracles := @Pipeline.oracles caps set_back ids.

(** An environment whose [generate_response] raises on every query. *)
Definition env_raising : Oracles :=
  {| clock := ticking; uuid4 := ids;
     generate := fun _ _ => inl {| exc_str := lit "connection refused" |} |}.

(** An agent in the middle of a conversation. *)
Definition chatted : Agent.MentalHealthAgent :=
  Agent.with_history
    [ {| Agent.role := user; Agent.message := lit "hi";
         Agent.timestamp := ticking 0; Agent.session_id := None |};
      {| Agent.role := assistant; Agent.message := lit "hello";
         Agent.timestamp := ticking 1; Agent.session_id := None |} ]
    (Agent.__init__ (lit "key")).

Definition agent0 : World * Agent.MentalHealthAgent :=
  (boot, Agent.__init__ (lit "key")).

Definition server0 : World * Server.MentalHealthServer :=
  (boot, Server.startup (lit "key")).

Definition hello : Server.ChatMessage :=
  {| Server.cm_message := lit "hello"; Server.cm_session_id := None |}.

(** The server after a first message without a session id. *)
Definition server1 : World * Server.MentalHealthServer :=
  (@Server.chat_endpoint env hello server0).2.


End Demo.

(* ===================================================================== *)
(** ** Further operations and the shapes of reachable states *)
(* ===================================================================== *)

Module Cli.

(** The line typed is [/exit] or [/quit], in any case and with any
    whitespace around it: the test made by the loop of [run]. *)
Definition exit_command (line : str) : bool :=
  startswith (lit "/") (strip line)
  && py_in (lower (drop 1 (strip line))) [lit "exit"; lit "quit"].

(** The line typed is a command: what is left after [strip] starts with a
    slash. *)
Definition slash_command (line : str) : bool :=
  startswith (lit "/") (strip line).

(** Every turn of the history carries the session id of the agent. *)
Definition stamped (self : Agent.MentalHealthAgent) : Prop :=
  Forall (fun t => Agent.session_id t = Agent.current_session_id self)
         (Agent.conversation_history self).

(** A system turn is found at the head of the history only, and is the
    greeting. *)
Definition greeting_first (h : list Agent.Turn) : Prop :=
  forall i t, h !! i = Some t -> Agent.role t = system ->
    i = 0%nat /\ Agent.message t = Agent.greeting.

(** A user turn holds a text that was typed as a message: it has no
    whitespace around it, is not blank and is no command. *)
Definition typed_message (t : Agent.Turn) : Prop :=
  Agent.role t = user ->
  strip (Agent.message t) = Agent.message t
  /\ blank (Agent.message t) = false
  /\ startswith (lit "/") (Agent.message t) = false.

(** The entry [_add_to_history] makes. *)
Definition turn_of (r : Role) (m : str) (t : Z) (sid : option str)
    : Agent.Turn :=
  {| Agent.role := r; Agent.message := m; Agent.timestamp := t;
     Agent.session_id := sid |}.

(** The last [n] elements of a list. *)
Definition last_n {A : Type} (n : nat) (l : list A) : list A :=
  drop (length l - n) l.

End Cli.

Module Api.

(** No message of the session has the system role, and every answer comes
    right after a user message. *)
Definition answered (l : list Server.Message) : Prop :=
  forall i m, l !! i = Some m ->
    Server.role m <> system
    /\ (Server.role m = assistant ->
        exists j u, i = S j /\ l !! j = Some u /\ Server.role u = user).

(** [sum(len(session["messages"]) for session in self.sessions.values())] *)
Definition total_messages (sessions : gmap str Server.Session) : nat :=
  map_fold (fun _ s n => (length (Server.messages s) + n)%nat) 0%nat sessions.

(** The dictionary returned by [GET /stats]; [knowledge_base] is what
    [get_collection_stats()] returned. *)
Record Stats (T : Type) := {
  total_sessions : nat;
  stats_total_messages : nat;
  active_since : Z;
  rag_system_status : str;
  knowledge_base : T
}.
Arguments total_sessions {T}.
Arguments stats_total_messages {T}.
Arguments active_since {T}.
Arguments rag_system_status {T}.
Arguments knowledge_base {T}.

Section Stats.
Context `{!Oracles} {T : Type}.

(** [self.rag_system.get_collection_stats()]: the method belongs to the
    pipeline class; it returns its statistics or raises. *)
Variable get_collection_stats : Rag.MentalHealthRAG -> PyException + T.

(** [GET /stats]; [rag_system] is set, so the status is ["connected"] and
    the statistics of the knowledge base are asked for. *)
Definition get_stats (st : World * Server.MentalHealthServer)
    : (Server.HTTPException + Stats T) * (World * Server.MentalHealthServer) :=
  let '(now, w) := datetime_now st.1 in
  match get_collection_stats (Server.rag_system st.2) with
  | inl e =>
      (inl {| Server.status_code := 500;
              Server.detail := lit "Error getting statistics: " ++ exc_str e |},
       (w, st.2))
  | inr kb_stats =>
      (inr {| total_sessions := size (Server.sessions st.2);
              stats_total_messages := total_messages (Server.sessions st.2);
              active_since := now;
              rag_system_status := lit "connected";
              knowledge_base := kb_stats |},
       (w, st.2))
  end.

End Stats.
End Api.

(* ===================================================================== *)
(** ** Facts about Python strings *)
(* ===================================================================== *)

Section StringFacts.
Implicit Types s p sub : str.

Lemma lstrip_nil_blank s : lstrip s = [] <-> blank s = true.
Proof.
  induction s as [|c s IH]; simpl; [tauto|].
  destruct (py_isspace c); simpl; [exact IH|].
  split; discriminate.
Qed.

Lemma rstrip_nil_blank s : rstrip s = [] <-> blank s = true.
Proof.
  induction s as [|c s IH]; simpl; [tauto|].
  destruct (rstrip s) as [|r rs] eqn:E.
  - destruct (py_isspace c); simpl.
    + split; [intros _; now apply IH | reflexivity].
    + split; discriminate.
  - split; [discriminate|].
    intros H. apply andb_true_iff in H as [_ H]. apply IH in H. discriminate.
Qed.

Lemma blank_lstrip s : blank (lstrip s) = blank s.
Proof.
  induction s as [|c s IH]; simpl; [reflexivity|].
  destruct (py_isspace c) eqn:E; simpl; [exact IH|].
  now rewrite E.
Qed.

(** [s.strip()] is the empty string exactly when [s] is empty or made of
    whitespace only. *)
Lemma strip_nil_blank s : strip s = [] <-> blank s = true.
Proof.
  unfold strip. rewrite rstrip_nil_blank, blank_lstrip. reflexivity.
Qed.

Lemma not_truthy_strip s : negb (truthy (strip s)) = blank s.
Proof.
  destruct (blank s) eqn:E.
  - apply strip_nil_blank in E. now rewrite E.
  - destruct (strip s) eqn:F; [|reflexivity].
    apply strip_nil_blank in F. congruence.
Qed.












End StringFacts.

(* ===================================================================== *)
(** ** The command-line agent *)
(* ===================================================================== *)

Section AgentFacts.
Context `{!Oracles}.
Implicit Types st : World * Agent.MentalHealthAgent.

Lemma add_to_history_eq r m st :
  Agent._add_to_history r m st =
  ({| clock_reads := S (clock_reads st.1); uuid_draws := uuid_draws st.1 |},
   Agent.with_history
     (Agent.conversation_history st.2
        ++ [ {| Agent.role := r; Agent.message := m;
                Agent.timestamp := clock (clock_reads st.1);
                Agent.session_id := Agent.current_session_id st.2 |} ])
     st.2).
Proof. reflexivity. Qed.

(** What [process_message] does on an input that is not blank when the
    pipeline returns: the user turn and the answer are appended, in that
    order, and four clock reads are made. *)
Lemma process_message_returns user_input st data :
  blank user_input = false ->
  generate (Rag.knowledge (Agent.rag_system st.2))
    (Agent.contextual_query user_input (Agent._add_to_history user user_input st).2)
    = inr data ->
  Agent.process_message user_input st =
  (inr (Rag.response data),
   ({| clock_reads := 4 + clock_reads st.1; uuid_draws := uuid_draws st.1 |},
    {| Agent.groq_api_key := Agent.groq_api_key st.2;
       Agent.rag_system :=
         {| Rag.knowledge := Rag.knowledge (Agent.rag_system st.2);
            Rag.queries := Rag.queries (Agent.rag_system st.2)
              ++ [Agent.contextual_query user_input
                    (Agent._add_to_history user user_input st).2] |};
       Agent.conversation_history :=
         Agent.conversation_history st.2
           ++ [ {| Agent.role := user; Agent.message := user_input;
                   Agent.timestamp := clock (clock_reads st.1);
                   Agent.session_id := Agent.current_session_id st.2 |};
                {| Agent.role := assistant; Agent.message := Rag.response data;
                   Agent.timestamp := clock (3 + clock_reads st.1);
                   Agent.session_id := Agent.current_session_id st.2 |} ];
       Agent.current_session_id := Agent.current_session_id st.2;
       Agent.user_name := Agent.user_name st.2 |})).
Proof.
  intros Hb Hg. unfold Agent.process_message.
  rewrite not_truthy_strip, Hb.
  unfold generate_response. cbn [time_time datetime_now].
  rewrite add_to_history_eq in *. cbn in Hg |- *. rewrite Hg.
  cbn. rewrite <- app_assoc. reflexivity.
Qed.

(** ... and when the pipeline raises: the user turn stays in the history,
    no answer is appended and the exception leaves the method. *)
Lemma process_message_raises user_input st e :
  blank user_input = false ->
  generate (Rag.knowledge (Agent.rag_system st.2))
    (Agent.contextual_query user_input (Agent._add_to_history user user_input st).2)
    = inl e ->
  (Agent.process_message user_input st).1 = inl e
  /\ Agent.conversation_history (Agent.process_message user_input st).2.2 =
     Agent.conversation_history st.2
       ++ [ {| Agent.role := user; Agent.message := user_input;
               Agent.timestamp := clock (clock_reads st.1);
               Agent.session_id := Agent.current_session_id st.2 |} ].
Proof.
  intros Hb Hg. unfold Agent.process_message.
  rewrite not_truthy_strip, Hb.
  unfold generate_response. cbn [time_time datetime_now].
  rewrite add_to_history_eq in *. cbn in Hg |- *. rewrite Hg.
  split; reflexivity.
Qed.

Lemma process_message_session user_input st :
  Agent.current_session_id (Agent.process_message user_input st).2.2
  = Agent.current_session_id st.2.
Proof.
  unfold Agent.process_message.
  destruct (negb (truthy (strip user_input))); [reflexivity|].
  unfold generate_response. cbn [time_time datetime_now].
  destruct (generate _ _); reflexivity.
Qed.

Lemma save_conversation_state filename st :
  (Agent.save_conversation filename st).2.2 = st.2.
Proof.
  unfold Agent.save_conversation.
  destruct (Agent.conversation_history st.2); [reflexivity|].
  destruct filename as [f|]; [destruct (truthy f)|]; reflexivity.
Qed.

End AgentFacts.

Section AgentClaims.
Context `{!Oracles}.
Implicit Types st : World * Agent.MentalHealthAgent.

(** C9. For every empty or whitespace-only input, [process_message] returns
    the fixed reply and leaves the whole agent untouched: no user turn and no
    assistant turn is appended, the pipeline is not called and the clock is
    not read. *)
Theorem process_message_blank_unchanged user_input st :
  blank user_input = true ->
  Agent.process_message user_input st = (inr Agent.please_type, st).
Proof.
  intros Hb. unfold Agent.process_message.
  now rewrite not_truthy_strip, Hb.
Qed.

(** Every method but [start_new_chat] leaves [current_session_id] alone, so
    one turn of the loop of [run] either keeps the session id or is a
    [/new] (or [/reset]) command. *)
Lemma run_line_session line st :
  Agent.current_session_id (Agent.run_line line st).2.2
    = Agent.current_session_id st.2
  \/ (Agent.run_line line st).2 = Agent.start_new_chat st.
Proof.
  unfold Agent.run_line.
  destruct (startswith _ _).
  - repeat (destruct (py_in _ _); [first [now right | now left
      | left; simpl; now rewrite save_conversation_state] |]).
    now left.
  - left. apply process_message_session.
Qed.

(** C10. [clear_history] empties the conversation history and keeps the
    session id and the knowledge store (the whole [rag_system]); among the
    methods of the agent only [start_new_chat] assigns the session id. *)
Theorem clear_history_frame st :
  Agent.conversation_history (Agent.clear_history st).2 = []
  /\ Agent.current_session_id (Agent.clear_history st).2
     = Agent.current_session_id st.2
  /\ Agent.rag_system (Agent.clear_history st).2 = Agent.rag_system st.2
  /\ Agent.current_session_id (Agent.start_new_chat st).2
     = Some (lit "session_" ++ str_of_int (int_seconds (clock (clock_reads st.1))))
  /\ (forall r m, Agent.current_session_id (Agent._add_to_history r m st).2
                  = Agent.current_session_id st.2)
  /\ (forall user_input,
        Agent.current_session_id (Agent.process_message user_input st).2.2
        = Agent.current_session_id st.2)
  /\ (forall filename, (Agent.save_conversation filename st).2.2 = st.2)
  /\ Agent.current_session_id (Agent._initialize_knowledge_base st.2)
     = Agent.current_session_id st.2
  /\ (forall line,
        Agent.current_session_id (Agent.run_line line st).2.2
          = Agent.current_session_id st.2
        \/ (Agent.run_line line st).2 = Agent.start_new_chat st).
Proof.
  repeat split; try reflexivity.
  - intros. apply process_message_session.
  - intros. apply save_conversation_state.
  - intros. apply run_line_session.
Qed.

End AgentClaims.

Section ConversationContext.
Context `{!Oracles}.

Lemma render_fold (l : list Agent.Turn) (init : str) :
  foldl (fun context msg => context ++ Agent.render_turn msg) init l
  = init ++ concat (Agent.render_turn <$> l).
Proof.
  revert init. induction l as [|t l IH]; intros init; simpl.
  - now rewrite app_nil_r.
  - rewrite IH, <- app_assoc. reflexivity.
Qed.

(** [l[-m:]] for a positive [m] is the last [m] elements of [l], all of [l]
    when it has fewer. *)
Lemma py_slice_last {A : Type} (m : Z) (l : list A) :
  0 < m -> py_slice_from (- m) l = drop (length l - Z.to_nat m) l.
Proof.
  intros Hm. unfold py_slice_from.
  destruct (Z.ltb_spec (- m) 0) as [_|?]; [|lia].
  f_equal. lia.
Qed.

(** [l[-0:]] is [l[0:]], the whole list. *)
Lemma py_slice_zero {A : Type} (l : list A) : py_slice_from (- 0) l = l.
Proof. reflexivity. Qed.

(** For a positive bound the context is the header line followed by one line
    [SPEAKER: message] for each user or assistant turn among the last
    [max_messages] turns of the history, in the order of the history. *)
Lemma context_positive_bound (max_messages : Z) (self : Agent.MentalHealthAgent) :
  0 < max_messages ->
  Agent.conversation_history self <> [] ->
  let h := Agent.conversation_history self in
  let shown :=
    filter (fun msg => Agent.role msg ∈ [user; assistant])
           (drop (length h - Z.to_nat max_messages) h) in
  Agent._get_conversation_context max_messages self
    = (lit "Recent conversation context:" ++ nl)
        ++ concat (Agent.render_turn <$> shown)
  /\ (length shown <= Z.to_nat max_messages)%nat
  /\ Forall (fun msg => Agent.role msg <> system) shown
  /\ shown `sublist_of` h
  /\ shown `suffix_of` filter (fun msg => Agent.role msg ∈ [user; assistant]) h.
Proof.
  intros Hm Hne. cbv zeta. unfold Agent._get_conversation_context.
  destruct (Agent.conversation_history self) as [|t h'] eqn:Eh; [congruence|].
  clear Hne Eh. generalize (t :: h'). clear t h'. intros h.
  rewrite render_fold, py_slice_last by exact Hm.
  split; [reflexivity|]. split; [|split; [|split]].
  - etransitivity; [apply length_filter|]. rewrite length_drop. lia.
  - apply Forall_forall. intros x Hx.
    apply list_elem_of_filter in Hx as [Hx _]. intros Hs. rewrite Hs in Hx.
    apply list_elem_of_In in Hx. simpl in Hx. intuition discriminate.
  - etransitivity; [apply sublist_filter|]. apply sublist_drop.
  - exists (filter (fun msg => Agent.role msg ∈ [user; assistant])
                   (take (length h - Z.to_nat max_messages) h)).
    now rewrite <- filter_app, take_drop.
Qed.

(** With an empty history there is no context at all. *)
Lemma context_empty_history (max_messages : Z) (self : Agent.MentalHealthAgent) :
  Agent.conversation_history self = [] ->
  Agent._get_conversation_context max_messages self = [].
Proof. intros E. unfold Agent._get_conversation_context. now rewrite E. Qed.

End ConversationContext.

(* ===================================================================== *)
(** ** The HTTP server *)
(* ===================================================================== *)

Section ServerFacts.
Context `{!Oracles}.
Implicit Types st : World * Server.MentalHealthServer.

(** Drawing the session id does not depend on the clock. *)
Lemma session_id_or_new_reads cm w n :
  Server.session_id_or_new cm {| clock_reads := n; uuid_draws := uuid_draws w |}
  = ((Server.session_id_or_new cm w).1,
     {| clock_reads := n; uuid_draws := uuid_draws (Server.session_id_or_new cm w).2 |}).
Proof.
  unfold Server.session_id_or_new.
  destruct (Server.cm_session_id cm) as [s|]; [destruct (truthy s)|]; reflexivity.
Qed.

(** What [POST /chat] does when the pipeline returns. *)
Lemma chat_body_returns cm st data :
  generate (Rag.knowledge (Server.rag_system st.2)) (Server.cm_message cm)
    = inr data ->
  let sid := (Server.session_id_or_new cm st.1).1 in
  let r0 := clock_reads st.1 in
  let k := match Server.sessions st.2 !! sid with Some _ => 0 | None => 1 end%nat in
  let base := match Server.sessions st.2 !! sid with
              | Some s => s
              | None => {| Server.created_at := clock (1 + r0);
                           Server.messages := [] |}
              end in
  Server.chat_body cm st =
  (inr {| Server.response := Rag.response data;
          Server.session_id := sid;
          Server.is_mental_health := Rag.is_mental_health data;
          Server.response_time := clock (3 + k + r0) - clock r0;
          Server.chat_timestamp := clock (4 + k + r0) |},
   ({| clock_reads := 5 + k + r0;
       uuid_draws := uuid_draws (Server.session_id_or_new cm st.1).2 |},
    {| Server.groq_api_key := Server.groq_api_key st.2;
       Server.rag_system :=
         {| Rag.knowledge := Rag.knowledge (Server.rag_system st.2);
            Rag.queries := Rag.queries (Server.rag_system st.2)
                             ++ [Server.cm_message cm] |};
       Server.sessions :=
         <[sid := {| Server.created_at := Server.created_at base;
                     Server.messages := Server.messages base
                       ++ [ {| Server.role := user;
                               Server.message := Server.cm_message cm;
                               Server.timestamp := clock (1 + k + r0) |};
                            {| Server.role := assistant;
                               Server.message := Rag.response data;
                               Server.timestamp := clock (2 + k + r0) |} ] |}]>
           (Server.sessions st.2) |})).
Proof.
  intros Hg. cbv zeta. destruct st as [w self]. cbn in Hg.
  unfold Server.chat_body.
  cbn [time_time datetime_now fst snd].
  rewrite session_id_or_new_reads.
  set (sid := (Server.session_id_or_new cm w).1).
  destruct (Server.sessions self !! sid) as [s|] eqn:E;
    unfold Server.append_message; cbn; rewrite ?E, ?lookup_insert_eq; cbn;
    rewrite Hg; cbn; rewrite lookup_insert_eq; cbn;
    rewrite ?insert_insert_eq, <- ?app_assoc; reflexivity.
Qed.

(** ... and when it raises: the user message stays in the session and the
    exception reaches the handler of the endpoint. *)
Lemma chat_body_raises cm st e :
  generate (Rag.knowledge (Server.rag_system st.2)) (Server.cm_message cm)
    = inl e ->
  let sid := (Server.session_id_or_new cm st.1).1 in
  let r0 := clock_reads st.1 in
  let k := match Server.sessions st.2 !! sid with Some _ => 0 | None => 1 end%nat in
  let base := match Server.sessions st.2 !! sid with
              | Some s => s
              | None => {| Server.created_at := clock (1 + r0);
                           Server.messages := [] |}
              end in
  Server.chat_body cm st =
  (inl e,
   ({| clock_reads := 2 + k + r0;
       uuid_draws := uuid_draws (Server.session_id_or_new cm st.1).2 |},
    {| Server.groq_api_key := Server.groq_api_key st.2;
       Server.rag_system :=
         {| Rag.knowledge := Rag.knowledge (Server.rag_system st.2);
            Rag.queries := Rag.queries (Server.rag_system st.2)
                             ++ [Server.cm_message cm] |};
       Server.sessions :=
         <[sid := {| Server.created_at := Server.created_at base;
                     Server.messages := Server.messages base
                       ++ [ {| Server.role := user;
                               Server.message := Server.cm_message cm;
                               Server.timestamp := clock (1 + k + r0) |} ] |}]>
           (Server.sessions st.2) |})).
Proof.
  intros Hg. cbv zeta. destruct st as [w self]. cbn in Hg.
  unfold Server.chat_body.
  cbn [time_time datetime_now fst snd].
  rewrite session_id_or_new_reads.
  set (sid := (Server.session_id_or_new cm w).1).
  destruct (Server.sessions self !! sid) as [s|] eqn:E;
    unfold Server.append_message; cbn; rewrite ?E, ?lookup_insert_eq; cbn;
    rewrite Hg; cbn; rewrite ?insert_insert_eq; reflexivity.
Qed.

(** The pipeline is called on every request, with the message as it came. *)
Lemma chat_endpoint_queries cm st :
  Rag.queries (Server.rag_system (Server.chat_endpoint cm st).2.2)
  = Rag.queries (Server.rag_system st.2) ++ [Server.cm_message cm].
Proof.
  unfold Server.chat_endpoint.
  destruct (generate (Rag.knowledge (Server.rag_system st.2))
              (Server.cm_message cm)) as [e|data] eqn:Hg.
  - now rewrite (chat_body_raises cm st e Hg).
  - now rewrite (chat_body_returns cm st data Hg).
Qed.


Lemma delete_session_absent session_id st :
  Server.sessions st.2 !! session_id = None ->
  Server.delete_session session_id st = (inl (Server.not_found session_id), st).
Proof. intros E. unfold Server.delete_session. now rewrite E. Qed.

Lemma delete_session_lookup session_id st :
  Server.sessions (Server.delete_session session_id st).2.2 !! session_id = None.
Proof.
  unfold Server.delete_session.
  destruct (Server.sessions st.2 !! session_id) eqn:E; cbn.
  - apply lookup_delete_eq.
  - exact E.
Qed.

End ServerFacts.

Section ServerClaims.
Context `{!Oracles}.
Implicit Types st : World * Server.MentalHealthServer.

(** C6. After [delete_session(id)], whether it succeeded or not,
    [get_session(id)] fails with the 404 not-found condition; and
    [delete_session(id)] itself fails with it when the id is not in the
    session dictionary, because it was never created or because it was
    deleted before. *)
Theorem delete_then_get_not_found session_id st :
  (Server.get_session session_id (Server.delete_session session_id st).2).1
    = inl (Server.not_found session_id)
  /\ (Server.delete_session session_id (Server.delete_session session_id st).2).1
    = inl (Server.not_found session_id)
  /\ (Server.sessions st.2 !! session_id = None ->
      Server.delete_session session_id st
        = (inl (Server.not_found session_id), st))
  /\ Server.status_code (Server.not_found session_id) = 404.
Proof.
  pose proof (delete_session_lookup session_id st) as Hgone.
  repeat split.
  - unfold Server.get_session. now rewrite Hgone.
  - now rewrite (delete_session_absent _ _ Hgone).
  - apply delete_session_absent.
Qed.


End ServerClaims.

(* ===================================================================== *)
(** ** Two calls in one session *)
(* ===================================================================== *)

Section Conversations.
Context `{!Oracles}.





End Conversations.

(* ===================================================================== *)
(** ** The front ends on the generation pipeline *)
(* ===================================================================== *)

Section PipelineClaims.
Context `{!Pipeline.Capabilities}.
Variables (clk : nat -> Z) (ids : nat -> str).




End PipelineClaims.

(* ===================================================================== *)
(** ** Order of the turns in time *)
(* ===================================================================== *)

Section Ordering.
Context `{!Oracles}.
Hypothesis clock_increasing : forall i j, (i < j)%nat -> clock i < clock j.

Lemma well_timed_nil n : well_timed n [].
Proof. split; constructor. Qed.

Lemma well_timed_later n n' ts :
  (n <= n')%nat -> well_timed n ts -> well_timed n' ts.
Proof.
  intros Hn [Hs Hb]. split; [exact Hs|].
  eapply Forall_impl; [exact Hb|]. intros t [i [Hi ->]].
  exists i. split; [lia | reflexivity].
Qed.

(** A timestamp read now comes after all those read before. *)
Lemma well_timed_snoc n ts :
  well_timed n ts -> well_timed (S n) (ts ++ [clock n]).
Proof.
  intros [Hs Hb]. split.
  - apply StronglySorted_app. split; [|split].
    + intros x1 x2 H1 H2. apply list_elem_of_singleton in H2 as ->.
      rewrite Forall_forall in Hb. destruct (Hb x1 H1) as [i [Hi ->]].
      now apply clock_increasing.
    + exact Hs.
    + repeat constructor.
  - apply Forall_app. split.
    + eapply Forall_impl; [exact Hb|]. intros t [i [Hi ->]].
      exists i. split; [lia | reflexivity].
    + constructor; [|constructor]. exists n. split; [lia | reflexivity].
Qed.

Lemma add_to_history_timed r m st :
  agent_timed st -> agent_timed (Agent._add_to_history r m st).
Proof.
  unfold agent_timed. rewrite add_to_history_eq. cbn.
  rewrite fmap_app. cbn. apply well_timed_snoc.
Qed.

Lemma start_new_chat_timed st : agent_timed (Agent.start_new_chat st).
Proof.
  unfold Agent.start_new_chat. cbn [time_time datetime_now].
  apply add_to_history_timed. apply well_timed_nil.
Qed.

Lemma process_message_timed u st :
  agent_timed st -> agent_timed (Agent.process_message u st).2.
Proof.
  intros Hst. destruct (blank u) eqn:Hb.
  - unfold Agent.process_message. now rewrite not_truthy_strip, Hb.
  - unfold Agent.process_message. rewrite not_truthy_strip, Hb.
    cbn [negb time_time datetime_now].
    pose proof (add_to_history_timed user u st Hst) as H1.
    unfold generate_response.
    set (st1 := Agent._add_to_history user u st) in *.
    destruct (generate _ _) as [e|data]; cbn [snd].
    + unfold agent_timed in *. cbn.
      eapply well_timed_later; [|exact H1]. subst st1. cbn. lia.
    + apply add_to_history_timed. unfold agent_timed in *. cbn.
      eapply well_timed_later; [|exact H1]. subst st1. cbn. lia.
Qed.

Lemma save_conversation_timed f st :
  agent_timed st -> agent_timed (Agent.save_conversation f st).2.
Proof.
  intros Hst. unfold agent_timed in *.
  rewrite save_conversation_state.
  eapply well_timed_later; [|exact Hst].
  unfold Agent.save_conversation.
  destruct (Agent.conversation_history st.2); [cbn; lia|].
  destruct f as [f|]; [destruct (truthy f)|]; cbn; lia.
Qed.

Lemma run_line_timed line st :
  agent_timed st -> agent_timed (Agent.run_line line st).2.
Proof.
  intros Hst. unfold Agent.run_line.
  destruct (startswith _ _); [|now apply process_message_timed].
  repeat (destruct (py_in _ _);
          [first [ exact Hst | apply start_new_chat_timed
                 | now apply save_conversation_timed
                 | apply well_timed_nil ] |]).
  exact Hst.
Qed.

Lemma run_loop_timed lines st :
  agent_timed st -> agent_timed (Agent.run_loop lines st).
Proof.
  revert st. induction lines as [|line rest IH]; intros st Hst; [exact Hst|].
  cbn. pose proof (run_line_timed line st Hst) as H1.
  destruct (Agent.run_line line st) as [[|] st']; [now apply IH | exact H1].
Qed.

Lemma chat_endpoint_timed cm st :
  server_timed st -> server_timed (Server.chat_endpoint cm st).2.
Proof.
  intros Hst. unfold Server.chat_endpoint.
  set (sid := (Server.session_id_or_new cm st.1).1).
  assert (Hbase : forall k,
    well_timed (k + clock_reads st.1)
      (Server.timestamp <$> Server.messages
         (match Server.sessions st.2 !! sid with
          | Some s => s
          | None => {| Server.created_at := clock (1 + clock_reads st.1);
                       Server.messages := [] |}
          end))).
  { intros k. destruct (Server.sessions st.2 !! sid) as [s|] eqn:E.
    - eapply well_timed_later; [|exact (Hst sid s E)]. lia.
    - apply well_timed_nil. }
  destruct (generate (Rag.knowledge (Server.rag_system st.2))
              (Server.cm_message cm)) as [e|data] eqn:Hg.
  - rewrite (chat_body_raises cm st e Hg). cbv zeta. fold sid.
    set (k := match Server.sessions st.2 !! sid with
              | Some _ => 0 | None => 1 end%nat).
    intros sid' s. cbn [fst snd Server.sessions clock_reads].
    destruct (decide (sid' = sid)) as [->|Hne].
    + rewrite lookup_insert_eq. intros [= <-].
      cbn [Server.messages Server.created_at]. rewrite fmap_app.
      cbn [fmap list_fmap Server.timestamp].
      exact (well_timed_snoc _ _ (Hbase (1 + k)%nat)).
    + rewrite lookup_insert_ne by congruence. intros E.
      eapply well_timed_later; [|exact (Hst sid' s E)]. lia.
  - rewrite (chat_body_returns cm st data Hg). cbv zeta. fold sid.
    set (k := match Server.sessions st.2 !! sid with
              | Some _ => 0 | None => 1 end%nat).
    intros sid' s. cbn [fst snd Server.sessions clock_reads].
    destruct (decide (sid' = sid)) as [->|Hne].
    + rewrite lookup_insert_eq. intros [= <-].
      cbn [Server.messages Server.created_at].
      pose proof (well_timed_snoc _ _
                    (well_timed_snoc _ _ (Hbase (1 + k)%nat))) as H2.
      rewrite <- app_assoc in H2.
      eapply well_timed_later; [|rewrite fmap_app; exact H2]. lia.
    + rewrite lookup_insert_ne by congruence. intros E.
      eapply well_timed_later; [|exact (Hst sid' s E)]. lia.
Qed.

Lemma serve_timed req st : server_timed st -> server_timed (Server.serve req st).
Proof.
  intros Hst. destruct req as [cm|i|i]; cbn.
  - now apply chat_endpoint_timed.
  - unfold Server.get_session. now destruct (Server.sessions st.2 !! i).
  - unfold Server.delete_session.
    destruct (Server.sessions st.2 !! i) eqn:E; [|exact Hst].
    intros sid' s'. cbn. intros Hl.
    apply lookup_delete_Some in Hl as [_ Hl]. exact (Hst sid' s' Hl).
Qed.

Lemma serve_all_timed reqs st :
  server_timed st -> server_timed (Server.serve_all reqs st).
Proof.
  revert st. induction reqs as [|req reqs IH]; intros st Hst; [exact Hst|].
  cbn. apply IH. now apply serve_timed.
Qed.

(** C8, as amended.  Turns are appended one at a time, each stamped with the
    clock value read at that moment, and the turns already there are kept as
    they are: the history after an append is the history before it followed
    by the new turn, one element longer.  When the clock is strictly
    increasing from one read to the next, the timestamps of every history
    the agent or the server can reach are strictly increasing.  The code
    itself does not order the turns by time; it relies on the clock. *)
Theorem history_ordered_by_clock
    (ast : World * Agent.MentalHealthAgent) (lines : list str)
    (sst : World * Server.MentalHealthServer) (reqs : list Server.Request) :
  server_timed sst ->
  StronglySorted Z.lt
    (Agent.timestamp <$> Agent.conversation_history (Agent.run lines ast).2)
  /\ (forall sid s,
        Server.sessions (Server.serve_all reqs sst).2 !! sid = Some s ->
        StronglySorted Z.lt (Server.timestamp <$> Server.messages s))
  /\ (forall r m st,
        Agent.conversation_history (Agent._add_to_history r m st).2
        = Agent.conversation_history st.2
            ++ [ {| Agent.role := r; Agent.message := m;
                    Agent.timestamp := clock (clock_reads st.1);
                    Agent.session_id := Agent.current_session_id st.2 |} ]
        /\ length (Agent.conversation_history (Agent._add_to_history r m st).2)
           = S (length (Agent.conversation_history st.2)))
  /\ (forall sid r text st s,
        Server.sessions st.2 !! sid = Some s ->
        exists s',
          Server.sessions (Server.append_message sid r text st).2.2 !! sid
          = Some s'
          /\ Server.messages s'
             = Server.messages s
                 ++ [ {| Server.role := r; Server.message := text;
                         Server.timestamp := clock (clock_reads st.1) |} ]
          /\ length (Server.messages s') = S (length (Server.messages s))).
Proof.
  intros Hsst. split; [|split; [|split]].
  - apply (run_loop_timed lines (Agent.start_new_chat ast)).
    apply start_new_chat_timed.
  - intros sid s Hs. exact (proj1 (serve_all_timed reqs sst Hsst sid s Hs)).
  - intros r m st. rewrite add_to_history_eq. cbn. split; [reflexivity|].
    rewrite length_app. cbn. lia.
  - intros sid r text st s Hs. unfold Server.append_message. rewrite Hs. cbn.
    eexists. split; [apply lookup_insert_eq|]. cbn. split; [reflexivity|].
    rewrite length_app. cbn. lia.
Qed.

End Ordering.

(* ===================================================================== *)
(** ** The claims on concrete runs *)
(* ===================================================================== *)

(** C4.  With the bound 0 the slice [history[-0:]] is the whole history: the
    context then shows every user and assistant turn of the history, for
    the agent below two of them, where a bound of 0 allows none. *)
Theorem context_with_bound_zero :
  (forall self : Agent.MentalHealthAgent,
     Agent._get_conversation_context 0 self
     = match Agent.conversation_history self with
       | [] => []
       | _ :: _ =>
           (lit "Recent conversation context:" ++ nl)
             ++ concat (Agent.render_turn <$>
                  filter (fun msg => Agent.role msg ∈ [user; assistant])
                         (Agent.conversation_history self))
       end)
  /\ Agent._get_conversation_context 0 Demo.chatted
     = lit "Recent conversation context:" ++ nl
         ++ lit "USER: hi" ++ nl ++ lit "ASSISTANT: hello" ++ nl.
Proof.
  split.
  - intros self. unfold Agent._get_conversation_context.
    destruct (Agent.conversation_history self) as [|t h]; [reflexivity|].
    rewrite render_fold. change (- 0) with 0. reflexivity.
  - vm_compute. reflexivity.
Qed.

(** C3.  [POST /chat] has no check for a blank message: the pipeline is
    called with the message of every request.  A message of three spaces is
    stored as a user turn, sent to the pipeline, and answered with the
    pipeline's text; [process_message] of the agent stops such an input
    before anything happens. *)
Theorem chat_endpoint_blank_message :
  let m := {| Server.cm_message := lit "   ";
              Server.cm_session_id := Some (lit "s1") |} in
  let out := @Server.chat_endpoint Demo.env m Demo.server0 in
  blank (Server.cm_message m) = true
  /\ (forall (env : Oracles) cm st,
        Rag.queries (Server.rag_system (@Server.chat_endpoint env cm st).2.2)
        = Rag.queries (Server.rag_system st.2) ++ [Server.cm_message cm])
  /\ (exists r, out.1 = inr r /\ Server.response r = lit "I hear you.")
  /\ Rag.queries (Server.rag_system out.2.2) = [lit "   "]
  /\ (Server.transcript <$> (Server.messages <$>
        Server.sessions out.2.2 !! lit "s1"))
     = Some [(user, lit "   "); (assistant, lit "I hear you.")]
  /\ @Agent.process_message Demo.env (lit "   ") Demo.agent0
     = (inr (lit "Please type something to chat with me."), Demo.agent0).
Proof.
  cbv zeta. split; [reflexivity|]. split; [|split; [|split; [|split]]].
  - intros env cm st. apply chat_endpoint_queries.
  - eexists. split; vm_compute; reflexivity.
  - vm_compute. reflexivity.
  - vm_compute. reflexivity.
  - vm_compute. reflexivity.
Qed.

Lemma process_message_blank_unchanged_witness :
  blank (lit "   ") = true
  /\ @Agent.process_message Demo.env (lit "   ") Demo.agent0
     = (inr Agent.please_type, Demo.agent0).
Proof.
  split; [reflexivity|].
  apply (@process_message_blank_unchanged Demo.env). reflexivity.
Defined.

Lemma delete_then_get_not_found_witness :
  (@Server.get_session (lit "uuid-0")
     (@Server.delete_session (lit "uuid-0") Demo.server1).2).1
    = inl (Server.not_found (lit "uuid-0"))
  /\ Server.sessions Demo.server0.2 !! lit "uuid-0" = None
  /\ @Server.delete_session (lit "uuid-0") Demo.server0
     = (inl (Server.not_found (lit "uuid-0")), Demo.server0).
Proof.
  split; [|split].
  - exact (proj1 (delete_then_get_not_found (lit "uuid-0") Demo.server1)).
  - reflexivity.
  - apply (delete_then_get_not_found (lit "uuid-0") Demo.server0).
    reflexivity.
Defined.




(** With a clock set back by an hour after its second read, the user turn
    carries an earlier timestamp than the greeting before it. *)
Lemma history_not_ordered_when_clock_set_back :
  ~ StronglySorted Z.lt
      (Agent.timestamp <$> Agent.conversation_history
         (@Agent.run Demo.env_set_back [lit "hello"] Demo.agent0).2).
Proof.
  assert (E : Agent.timestamp <$> Agent.conversation_history
                (@Agent.run Demo.env_set_back [lit "hello"] Demo.agent0).2
              = [1730714401000000; 1730710802000000; 1730710805000000])
    by (vm_compute; reflexivity).
  rewrite E. intros Hs.
  apply StronglySorted_inv in Hs as [_ Hall].
  apply Forall_inv in Hall. vm_compute in Hall. discriminate.
Qed.

Lemma history_ordered_by_clock_witness :
  (forall i j, (i < j)%nat -> Demo.ticking i < Demo.ticking j)
  /\ @server_timed Demo.env Demo.server0
  /\ StronglySorted Z.lt
       (Agent.timestamp <$> Agent.conversation_history
          (@Agent.run Demo.env [lit "hello"; lit "/save"; lit "bye"]
             Demo.agent0).2)
  /\ (forall sid s,
        Server.sessions
          (@Server.serve_all Demo.env
             [Server.Chat Demo.hello; Server.DeleteSession (lit "nobody");
              Server.Chat {| Server.cm_message := lit "again";
                             Server.cm_session_id := Some (lit "uuid-0") |}]
             Demo.server0).2 !! sid = Some s ->
        StronglySorted Z.lt (Server.timestamp <$> Server.messages s)).
Proof.
  assert (Hclock : forall i j, (i < j)%nat -> Demo.ticking i < Demo.ticking j)
    by (intros i j Hij; unfold Demo.ticking; lia).
  assert (Hst : @server_timed Demo.env Demo.server0)
    by (intros sid s Hs; cbn in Hs; rewrite lookup_empty in Hs; discriminate).
  split; [exact Hclock|]. split; [exact Hst|].
  pose proof (@history_ordered_by_clock Demo.env Hclock Demo.agent0
                [lit "hello"; lit "/save"; lit "bye"] Demo.server0
                [Server.Chat Demo.hello; Server.DeleteSession (lit "nobody");
                 Server.Chat {| Server.cm_message := lit "again";
                                Server.cm_session_id := Some (lit "uuid-0") |}]
                Hst) as [Ha [Hs _]].
  split; [exact Ha | exact Hs].
Defined.



(* ===================================================================== *)
(** ** More on the command-line agent *)
(* ===================================================================== *)

Section StripFacts.
Implicit Types s : str.

Lemma lstrip_head s c r : lstrip s = c :: r -> py_isspace c = false.
Proof.
  induction s as [|a s IH]; simpl; [discriminate|].
  destruct (py_isspace a) eqn:E; [exact IH|].
  intros [= <- <-]. exact E.
Qed.

Lemma lstrip_fixed c r : py_isspace c = false -> lstrip (c :: r) = c :: r.
Proof. intros E. simpl. now rewrite E. Qed.

Lemma rstrip_head c r :
  py_isspace c = false -> exists r', rstrip (c :: r) = c :: r'.
Proof.
  intros E. simpl. destruct (rstrip r) as [|b r'].
  - rewrite E. now exists [].
  - now exists (b :: r').
Qed.

Lemma rstrip_idem s : rstrip (rstrip s) = rstrip s.
Proof.
  induction s as [|c s IH]; [reflexivity|]. simpl.
  destruct (rstrip s) as [|b r] eqn:E.
  - destruct (py_isspace c) eqn:Ec; [reflexivity|]. simpl. now rewrite Ec.
  - change (rstrip (c :: b :: r)) with
      (match rstrip (b :: r) with
       | [] => if py_isspace c then [] else [c]
       | x :: y => c :: x :: y
       end).
    now rewrite IH.
Qed.

(** [strip] removes all there is to remove: stripping twice is stripping
    once. *)
Lemma strip_idem s : strip (strip s) = strip s.
Proof.
  unfold strip. destruct (lstrip s) as [|c r] eqn:E; [reflexivity|].
  pose proof (lstrip_head s c r E) as Hc.
  destruct (rstrip_head c r Hc) as [r' Hr]. rewrite Hr.
  rewrite (lstrip_fixed c r' Hc), <- Hr. apply rstrip_idem.
Qed.

End StripFacts.

Section AgentRuns.
Context `{!Oracles}.
Implicit Types st : World * Agent.MentalHealthAgent.

(** For a positive bound and a history that is not empty, the context is
    the header line and then one line [SPEAKER: message] for each user or
    assistant turn among the last [max_messages] turns of the history, in
    the order of the history: at most [max_messages] lines, no system turn,
    and the last user and assistant turns of the history. *)
Theorem context_shows_recent_turns
    (max_messages : Z) (self : Agent.MentalHealthAgent) :
  0 < max_messages ->
  Agent.conversation_history self <> [] ->
  let h := Agent.conversation_history self in
  let shown :=
    filter (fun msg => Agent.role msg ∈ [user; assistant])
           (drop (length h - Z.to_nat max_messages) h) in
  Agent._get_conversation_context max_messages self
    = (lit "Recent conversation context:" ++ nl)
        ++ concat (Agent.render_turn <$> shown)
  /\ (length shown <= Z.to_nat max_messages)%nat
  /\ Forall (fun msg => Agent.role msg <> system) shown
  /\ shown `sublist_of` h
  /\ shown `suffix_of` filter (fun msg => Agent.role msg ∈ [user; assistant]) h.
Proof. intros Hm Hne. exact (context_positive_bound max_messages self Hm Hne). Qed.

(** The context built right after the input was recorded is not empty and
    ends with the line of that input, so the query sent to the pipeline
    always carries the context, and carries the input twice. *)
Theorem contextual_query_shape user_input st :
  let st1 := Agent._add_to_history user user_input st in
  exists before,
    Agent._get_conversation_context 10 st1.2
      = before ++ lit "USER: " ++ user_input ++ nl
    /\ Agent.contextual_query user_input st1.2
      = before ++ lit "USER: " ++ user_input ++ nl ++ nl
          ++ lit "Current query: " ++ user_input.
Proof.
  cbv zeta. rewrite add_to_history_eq. cbn [snd].
  set (t := {| Agent.role := user; Agent.message := user_input;
               Agent.timestamp := clock (clock_reads st.1);
               Agent.session_id := Agent.current_session_id st.2 |}).
  set (h := Agent.conversation_history st.2).
  assert (Hctx : exists before,
    Agent._get_conversation_context 10 (Agent.with_history (h ++ [t]) st.2)
      = before ++ lit "USER: " ++ user_input ++ nl).
  { destruct (context_positive_bound 10 (Agent.with_history (h ++ [t]) st.2))
      as [Hc _]; [lia | cbn; now destruct h |].
    cbn [Agent.with_history Agent.conversation_history] in Hc.
    rewrite Hc, length_app. cbn [length].
    rewrite drop_app_le by lia. rewrite filter_app.
    assert (Hf : filter (fun msg => Agent.role msg ∈ [user; assistant]) [t]
                 = [t]) by reflexivity.
    rewrite Hf, fmap_app, concat_app.
    assert (Hr : concat (Agent.render_turn <$> [t])
                 = lit "USER: " ++ user_input ++ nl).
    { cbn. rewrite app_nil_r. unfold Agent.render_turn. reflexivity. }
    rewrite Hr, app_assoc. eexists. reflexivity. }
  destruct Hctx as [before Hctx]. exists before. split; [exact Hctx|].
  unfold Agent.contextual_query. rewrite Hctx.
  assert (Ht : truthy (before ++ lit "USER: " ++ user_input ++ nl) = true)
    by (now destruct before).
  rewrite Ht. rewrite <- !app_assoc. reflexivity.
Qed.

Lemma blank_strip s : blank (strip s) = blank s.
Proof.
  destruct (blank s) eqn:E.
  - apply strip_nil_blank in E. now rewrite E.
  - destruct (blank (strip s)) eqn:F; [|reflexivity].
    apply strip_nil_blank in F. rewrite strip_idem in F.
    apply strip_nil_blank in F. congruence.
Qed.

(** On an input that is not blank the pipeline is called once, with the
    contextual query, whether it returns or raises. *)
Lemma process_message_rag u st :
  blank u = false ->
  Agent.rag_system (Agent.process_message u st).2.2
  = {| Rag.knowledge := Rag.knowledge (Agent.rag_system st.2);
       Rag.queries := Rag.queries (Agent.rag_system st.2)
         ++ [Agent.contextual_query u (Agent._add_to_history user u st).2] |}.
Proof.
  intros Hb. unfold Agent.process_message. rewrite not_truthy_strip, Hb.
  unfold generate_response. cbn [negb time_time datetime_now].
  destruct (generate _ _); reflexivity.
Qed.

(** A blank line typed at the prompt changes nothing. *)
Lemma run_line_blank line st :
  blank line = true -> Agent.run_line line st = (Agent.Continue, st).
Proof.
  intros Hb. unfold Agent.run_line.
  apply strip_nil_blank in Hb. rewrite Hb. reflexivity.
Qed.

(** The pipeline is called for the lines that are neither blank nor
    commands, once for each, with the contextual query of the stripped
    line; no line changes the knowledge store. *)
Theorem run_line_pipeline_calls line st :
  Agent.rag_system (Agent.run_line line st).2.2
  = {| Rag.knowledge := Rag.knowledge (Agent.rag_system st.2);
       Rag.queries := Rag.queries (Agent.rag_system st.2)
         ++ (if Cli.slash_command line || blank line then []
             else [Agent.contextual_query (strip line)
                     (Agent._add_to_history user (strip line) st).2]) |}.
Proof.
  assert (Hsame : forall r : Rag.MentalHealthRAG,
            r = {| Rag.knowledge := Rag.knowledge r;
                   Rag.queries := Rag.queries r ++ [] |}).
  { intros [k q]. cbn. now rewrite app_nil_r. }
  unfold Agent.run_line, Cli.slash_command.
  destruct (startswith (lit "/") (strip line)) eqn:Hs; cbn [orb].
  - repeat (destruct (py_in _ _);
            [first [ apply Hsame
                   | cbn [snd]; rewrite save_conversation_state; apply Hsame ]
            |]).
    apply Hsame.
  - cbn [snd]. destruct (blank line) eqn:Hb.
    + unfold Agent.process_message.
      rewrite not_truthy_strip, blank_strip, Hb. apply Hsame.
    + apply process_message_rag. now rewrite blank_strip.
Qed.

(** The loop is left exactly on an exit command, and then the agent is as
    it was. *)
Lemma run_line_break line st :
  Agent.run_line line st
  = if Cli.exit_command line then (Agent.Break, st)
    else (Agent.Continue, (Agent.run_line line st).2).
Proof.
  unfold Agent.run_line, Cli.exit_command.
  destruct (startswith (lit "/") (strip line)); cbn [andb]; [|reflexivity].
  destruct (py_in (lower (drop 1 (strip line))) [lit "exit"; lit "quit"]);
    [reflexivity|].
  repeat (destruct (py_in _ _); [reflexivity|]). reflexivity.
Qed.

(** Lines typed after an exit command are never read: the agent ends in
    the state the lines before it led to. *)
Theorem run_loop_stops_at_exit (before after : list str) (line : str) st :
  Forall (fun l => Cli.exit_command l = false) before ->
  Cli.exit_command line = true ->
  Agent.run_loop (before ++ line :: after) st = Agent.run_loop before st.
Proof.
  intros Hb Hx. revert st.
  induction Hb as [|l before Hl _ IH]; intros st; cbn.
  - rewrite run_line_break, Hx. reflexivity.
  - rewrite run_line_break, Hl. apply IH.
Qed.

End AgentRuns.

Section AgentInvariants.
Context `{!Oracles}.
Implicit Types st : World * Agent.MentalHealthAgent.

(** On an input that is not blank, [process_message] appends the user turn
    and, when the pipeline returns, the answer after it, both stamped with
    the session id, which it keeps. *)
Lemma process_message_shape u st :
  blank u = false ->
  exists ts,
    Agent.conversation_history (Agent.process_message u st).2.2
    = Agent.conversation_history st.2
        ++ Cli.turn_of user u (clock (clock_reads st.1))
             (Agent.current_session_id st.2) :: ts
    /\ (ts = [] \/ exists a n,
          ts = [Cli.turn_of assistant a n (Agent.current_session_id st.2)])
    /\ Agent.current_session_id (Agent.process_message u st).2.2
       = Agent.current_session_id st.2.
Proof.
  intros Hb.
  destruct (generate (Rag.knowledge (Agent.rag_system st.2))
              (Agent.contextual_query u (Agent._add_to_history user u st).2))
    as [e|data] eqn:Hg.
  - destruct (process_message_raises u st e Hb Hg) as [_ Hh].
    exists []. split; [exact Hh|]. split; [now left|].
    apply process_message_session.
  - rewrite (process_message_returns u st data Hb Hg). cbn.
    eexists. split; [reflexivity|]. split; [|reflexivity].
    right. now eexists _, _.
Qed.

(** A property of the history and the session id that holds after
    [start_new_chat], survives [clear_history] and survives the turns a
    typed message adds, holds in every state [run] reaches. *)
Lemma run_invariant (P : list Agent.Turn -> option str -> Prop) :
  (forall t id, P [Cli.turn_of system Agent.greeting t (Some id)] (Some id)) ->
  (forall h sid, P h sid -> P [] sid) ->
  (forall h sid u n ts,
      P h sid -> strip u = u -> blank u = false ->
      startswith (lit "/") u = false ->
      (ts = [] \/ exists a n', ts = [Cli.turn_of assistant a n' sid]) ->
      P (h ++ Cli.turn_of user u n sid :: ts) sid) ->
  forall lines st,
    P (Agent.conversation_history (Agent.run lines st).2)
      (Agent.current_session_id (Agent.run lines st).2).
Proof.
  intros Hstart Hclear Hmsg lines st. unfold Agent.run.
  assert (H0 : P (Agent.conversation_history (Agent.start_new_chat st).2)
                 (Agent.current_session_id (Agent.start_new_chat st).2))
    by apply Hstart.
  revert H0. generalize (Agent.start_new_chat st). clear st.
  induction lines as [|line rest IH]; intros st Hst; [exact Hst|].
  cbn [Agent.run_loop].
  assert (Hline : P (Agent.conversation_history (Agent.run_line line st).2.2)
                    (Agent.current_session_id (Agent.run_line line st).2.2)).
  { unfold Agent.run_line.
    destruct (startswith (lit "/") (strip line)) eqn:Hs.
    - repeat (destruct (py_in _ _);
              [first [ exact Hst | apply Hstart
                     | cbn [snd]; rewrite save_conversation_state; exact Hst
                     | exact (Hclear _ _ Hst) ] |]).
      exact Hst.
    - cbn [snd]. destruct (blank line) eqn:Hb.
      + unfold Agent.process_message.
        rewrite not_truthy_strip, blank_strip, Hb. exact Hst.
      + destruct (process_message_shape (strip line) st) as [ts [Hh [Hts Hsid]]];
          [now rewrite blank_strip|].
        rewrite Hh, Hsid. apply Hmsg; auto using strip_idem.
        now rewrite blank_strip. }
  rewrite run_line_break.
  destruct (Cli.exit_command line).
  - exact Hst.
  - apply IH. exact Hline.
Qed.

(** In every state [run] reaches, each turn of the history carries the
    current session id, and that id is one [start_new_chat] has set. *)
Theorem run_history_stamped lines st :
  Cli.stamped (Agent.run lines st).2
  /\ is_Some (Agent.current_session_id (Agent.run lines st).2).
Proof.
  unfold Cli.stamped.
  apply (run_invariant
           (fun h sid => Forall (fun t => Agent.session_id t = sid) h
                         /\ is_Some sid)).
  - intros t id. split; [repeat constructor | eauto].
  - intros h sid [_ Hs]. split; [constructor | exact Hs].
  - intros h sid u n ts [Hh Hs] _ _ _ Hts. split; [|exact Hs].
    apply Forall_app. split; [exact Hh|].
    constructor; [reflexivity|].
    destruct Hts as [->|[a [n' ->]]]; repeat constructor.
Qed.

Lemma greeting_first_in_run lines st :
  Cli.greeting_first (Agent.conversation_history (Agent.run lines st).2).
Proof.
  apply (run_invariant (fun h _ => Cli.greeting_first h)).
  - intros t id i x Hi Hr. destruct i as [|i]; [|destruct i; discriminate].
    injection Hi as <-. split; reflexivity.
  - intros h sid _ i x Hi. discriminate.
  - intros h sid u n ts Hh _ _ _ Hts i x Hi Hr.
    apply lookup_app_Some in Hi as [Hi|[_ Hi]]; [exact (Hh i x Hi Hr)|].
    exfalso. destruct (i - length h)%nat as [|k]; cbn in Hi.
    + injection Hi as <-. discriminate.
    + destruct Hts as [->|[a [n' ->]]]; [discriminate|].
      destruct k; [|discriminate]. injection Hi as <-. discriminate.
Qed.

(** In every state [run] reaches, the only system turn the history can
    hold is the greeting, as its first turn. *)
Theorem run_greeting_first lines st :
  forall i t,
    Agent.conversation_history (Agent.run lines st).2 !! i = Some t ->
    Agent.role t = system ->
    i = 0%nat /\ Agent.message t = Agent.greeting.
Proof. exact (greeting_first_in_run lines st). Qed.

(** In every state [run] reaches, the user turns of the history hold what
    was typed as a message: a text without whitespace around it, not
    blank, and not starting with a slash. *)
Theorem run_user_turns_typed lines st :
  Forall Cli.typed_message
         (Agent.conversation_history (Agent.run lines st).2).
Proof.
  apply (run_invariant (fun h _ => Forall Cli.typed_message h)).
  - intros t id. constructor; [intros Hr; discriminate | constructor].
  - intros. constructor.
  - intros h sid u n ts Hh Hs Hb Hc Hts.
    apply Forall_app. split; [exact Hh|].
    constructor; [intros _; cbn; auto|].
    destruct Hts as [->|[a [n' ->]]]; [constructor|].
    constructor; [intros Hr; discriminate | constructor].
Qed.

Lemma filter_all {A : Type} (P : A -> Prop) `{!forall x, Decision (P x)}
    (l : list A) :
  Forall P l -> filter P l = l.
Proof.
  induction 1 as [|x l Hx _ IH]; [reflexivity|].
  rewrite filter_cons_True by exact Hx. now rewrite IH.
Qed.

(** When a system turn can only be the first turn, taking the last [n]
    turns and dropping the system turns can be done in either order. *)
Lemma slice_filter_commute (h : list Agent.Turn) (n : nat) :
  Cli.greeting_first h -> (0 < n)%nat ->
  filter (fun msg => Agent.role msg ∈ [user; assistant])
         (drop (length h - n) h)
  = Cli.last_n n (filter (fun msg => Agent.role msg ∈ [user; assistant]) h).
Proof.
  intros Hg Hn. unfold Cli.last_n.
  destruct h as [|t rest]; [reflexivity|].
  assert (Hrest : Forall (fun msg => Agent.role msg ∈ [user; assistant]) rest).
  { apply Forall_lookup. intros i x Hi.
    destruct (Agent.role x) eqn:Hr; [set_solver | set_solver |].
    destruct (Hg (S i) x Hi Hr) as [? _]. discriminate. }
  destruct (decide (Agent.role t ∈ [user; assistant])) as [Ht|Ht].
  - assert (Hall : Forall (fun msg => Agent.role msg ∈ [user; assistant])
                          (t :: rest)) by now constructor.
    rewrite (filter_all _ _ Hall).
    apply filter_all. now apply Forall_drop.
  - rewrite filter_cons_False by exact Ht. rewrite (filter_all _ _ Hrest).
    cbn [length]. destruct (decide (length rest < n)%nat) as [Hlt|Hge].
    + replace (S (length rest) - n)%nat with 0%nat by lia.
      replace (length rest - n)%nat with 0%nat by lia.
      cbn [drop]. rewrite filter_cons_False by exact Ht.
      now rewrite (filter_all _ _ Hrest).
    + replace (S (length rest) - n)%nat with (S (length rest - n)) by lia.
      cbn [drop]. apply filter_all. now apply Forall_drop.
Qed.

(** In every state [run] reaches with a history that is not empty, the
    context of bound 10 shows the last ten user and assistant turns of the
    history, all of them when there are fewer. *)
Theorem run_context_last_ten lines st :
  let self := (Agent.run lines st).2 in
  Agent.conversation_history self <> [] ->
  Agent._get_conversation_context 10 self
  = (lit "Recent conversation context:" ++ nl)
      ++ concat (Agent.render_turn <$>
           Cli.last_n 10
             (filter (fun msg => Agent.role msg ∈ [user; assistant])
                     (Agent.conversation_history self))).
Proof.
  cbv zeta. intros Hne.
  destruct (context_positive_bound 10 (Agent.run lines st).2) as [Hc _];
    [lia | exact Hne |].
  rewrite Hc. do 3 f_equal.
  apply (slice_filter_commute _ 10); [apply greeting_first_in_run | lia].
Qed.

End AgentInvariants.

Section AgentErrors.
Context `{!Oracles}.
Implicit Types st : World * Agent.MentalHealthAgent.

(** When the pipeline raises, [process_message] lets the exception through
    and the input stays in the history as an unanswered user turn; the loop
    of [run] catches the exception and goes on from that state. *)
Theorem process_message_failure_keeps_turn user_input st e :
  blank user_input = false ->
  generate (Rag.knowledge (Agent.rag_system st.2))
    (Agent.contextual_query user_input
       (Agent._add_to_history user user_input st).2) = inl e ->
  (Agent.process_message user_input st).1 = inl e
  /\ Agent.conversation_history (Agent.process_message user_input st).2.2
     = Agent.conversation_history st.2
         ++ [Cli.turn_of user user_input (clock (clock_reads st.1))
               (Agent.current_session_id st.2)]
  /\ (Cli.slash_command user_input = false ->
      strip user_input = user_input ->
      Agent.run_line user_input st
      = (Agent.Continue, (Agent.process_message user_input st).2)).
Proof.
  intros Hb Hg. destruct (process_message_raises user_input st e Hb Hg) as [He Hh].
  split; [exact He|]. split; [exact Hh|].
  intros Hs Hstrip. unfold Agent.run_line. unfold Cli.slash_command in Hs.
  now rewrite Hs, Hstrip.
Qed.


End AgentErrors.

(* ===================================================================== *)
(** ** More on the HTTP server *)
(* ===================================================================== *)

Section ServerSessions.
Context `{!Oracles}.
Implicit Types st : World * Server.MentalHealthServer.

(** The messages a session holds, none when there is no such session. *)
Lemma chat_endpoint_sessions cm st :
  let sid := (Server.session_id_or_new cm st.1).1 in
  exists s' ts,
    Server.sessions (Server.chat_endpoint cm st).2.2 = <[sid := s']> (Server.sessions st.2)
    /\ Server.messages s'
       = match Server.sessions st.2 !! sid with
         | Some s => Server.messages s
         | None => []
         end ++ ts
    /\ (forall s, Server.sessions st.2 !! sid = Some s ->
        Server.created_at s' = Server.created_at s)
    /\ exists t1, ts = [ {| Server.role := user;
                            Server.message := Server.cm_message cm;
                            Server.timestamp := t1 |} ]
       \/ exists a t2, ts = [ {| Server.role := user;
                                 Server.message := Server.cm_message cm;
                                 Server.timestamp := t1 |};
                              {| Server.role := assistant;
                                 Server.message := a;
                                 Server.timestamp := t2 |} ].
Proof.
  cbv zeta. unfold Server.chat_endpoint.
  destruct (generate (Rag.knowledge (Server.rag_system st.2))
              (Server.cm_message cm)) as [e|data] eqn:Hg.
  - rewrite (chat_body_raises cm st e Hg). cbv zeta. cbn [snd Server.sessions].
    destruct (Server.sessions st.2 !! _) as [s0|];
      eexists _, _; (split; [reflexivity|]);
      cbn [Server.messages Server.created_at];
      (split; [reflexivity|]);
      (split; [intros s; try discriminate; intros [= <-]; reflexivity|]);
      eexists; left; reflexivity.
  - rewrite (chat_body_returns cm st data Hg). cbv zeta. cbn [snd Server.sessions].
    destruct (Server.sessions st.2 !! _) as [s0|];
      eexists _, _; (split; [reflexivity|]);
      cbn [Server.messages Server.created_at];
      (split; [reflexivity|]);
      (split; [intros s; try discriminate; intros [= <-]; reflexivity|]);
      eexists; right; eexists _, _; reflexivity.
Qed.

(** When the pipeline raises, [POST /chat] answers 500 with the text of the
    exception, but what was done before stays: the session exists, created
    if it was new, and holds the message as an unanswered user turn. *)
Theorem chat_endpoint_failure_keeps_message cm st e :
  generate (Rag.knowledge (Server.rag_system st.2)) (Server.cm_message cm)
    = inl e ->
  let sid := (Server.session_id_or_new cm st.1).1 in
  (Server.chat_endpoint cm st).1
    = inl {| Server.status_code := 500;
             Server.detail := lit "Error processing message: " ++ exc_str e |}
  /\ exists s' t,
      Server.sessions (Server.chat_endpoint cm st).2.2 !! sid = Some s'
      /\ Server.messages s'
         = match Server.sessions st.2 !! sid with
           | Some s => Server.messages s
           | None => []
           end
           ++ [ {| Server.role := user;
                   Server.message := Server.cm_message cm;
                   Server.timestamp := t |} ].
Proof.
  intros Hg. cbv zeta. unfold Server.chat_endpoint.
  rewrite (chat_body_raises cm st e Hg). cbv zeta. cbn [fst snd Server.sessions].
  split; [reflexivity|].
  destruct (Server.sessions st.2 !! _);
    eexists _, _; (split; [apply lookup_insert_eq|]); reflexivity.
Qed.

(** Sessions are isolated: [POST /chat] touches the session it names (or
    draws) and no other, [DELETE] removes the session it names and no
    other, and neither changes the knowledge store. *)
Theorem other_sessions_untouched cm session_id st other :
  (other <> (Server.session_id_or_new cm st.1).1 ->
   Server.sessions (Server.chat_endpoint cm st).2.2 !! other
   = Server.sessions st.2 !! other)
  /\ (other <> session_id ->
      Server.sessions (Server.delete_session session_id st).2.2 !! other
      = Server.sessions st.2 !! other)
  /\ Rag.knowledge (Server.rag_system (Server.chat_endpoint cm st).2.2)
     = Rag.knowledge (Server.rag_system st.2)
  /\ Server.rag_system (Server.delete_session session_id st).2.2
     = Server.rag_system st.2.
Proof.
  split; [|split; [|split]].
  - intros Hne.
    destruct (chat_endpoint_sessions cm st) as [s' [ts [Hs _]]].
    rewrite Hs. apply lookup_insert_ne. congruence.
  - intros Hne. unfold Server.delete_session.
    destruct (Server.sessions st.2 !! session_id); [|reflexivity].
    cbn. apply lookup_delete_ne. congruence.
  - unfold Server.chat_endpoint.
    destruct (generate (Rag.knowledge (Server.rag_system st.2))
                (Server.cm_message cm)) as [e|data] eqn:Hg.
    + now rewrite (chat_body_raises cm st e Hg).
    + now rewrite (chat_body_returns cm st data Hg).
  - unfold Server.delete_session.
    now destruct (Server.sessions st.2 !! session_id).
Qed.

(** [POST /chat] only ever appends: a session that exists keeps its
    creation time and its messages, in order, as the beginning of its new
    messages, whether the call succeeds or fails. *)
Theorem chat_endpoint_append_only cm st sid s :
  Server.sessions st.2 !! sid = Some s ->
  exists s',
    Server.sessions (Server.chat_endpoint cm st).2.2 !! sid = Some s'
    /\ Server.created_at s' = Server.created_at s
    /\ Server.messages s `prefix_of` Server.messages s'.
Proof.
  intros Hs.
  destruct (chat_endpoint_sessions cm st) as [s' [ts [Hm [Hmsg [Hc _]]]]].
  rewrite Hm.
  destruct (decide (sid = (Server.session_id_or_new cm st.1).1)) as [->|Hne].
  - exists s'. rewrite lookup_insert_eq. split; [reflexivity|].
    rewrite Hs in Hmsg. split; [exact (Hc s Hs)|]. rewrite Hmsg.
    now apply prefix_app_r.
  - exists s. rewrite lookup_insert_ne by congruence. auto.
Qed.


(** A session id that was deleted can be used again: the next message sent
    under it opens a new session, with a new creation time and none of the
    old messages. *)
Theorem chat_after_delete_starts_over session_id text st s data :
  Server.sessions st.2 !! session_id = Some s ->
  truthy session_id = true ->
  generate (Rag.knowledge (Server.rag_system st.2)) text = inr data ->
  let st1 := (Server.delete_session session_id st).2 in
  let cm := {| Server.cm_message := text;
               Server.cm_session_id := Some session_id |} in
  Server.sessions (Server.chat_endpoint cm st1).2.2 !! session_id
  = Some {| Server.created_at := clock (1 + clock_reads st.1);
            Server.messages :=
              [ {| Server.role := user; Server.message := text;
                   Server.timestamp := clock (2 + clock_reads st.1) |};
                {| Server.role := assistant;
                   Server.message := Rag.response data;
                   Server.timestamp := clock (3 + clock_reads st.1) |} ] |}.
Proof.
  intros Hs Ht Hg. cbv zeta. unfold Server.delete_session. rewrite Hs.
  cbn [snd]. unfold Server.chat_endpoint.
  rewrite (chat_body_returns _ _ data) by exact Hg.
  cbv zeta. cbn [fst snd Server.sessions Server.with_sessions].
  unfold Server.session_id_or_new. cbn [Server.cm_session_id].
  rewrite Ht. cbn [fst]. rewrite lookup_delete_eq, lookup_insert_eq.
  reflexivity.
Qed.

End ServerSessions.

Section ServerShapes.
Context `{!Oracles}.
Implicit Types st : World * Server.MentalHealthServer.

Lemma answered_nil : Api.answered [].
Proof. intros i m Hi. discriminate. Qed.

Lemma answered_app_user l text t :
  Api.answered l ->
  Api.answered (l ++ [ {| Server.role := user; Server.message := text;
                          Server.timestamp := t |} ]).
Proof.
  intros Hl i m Hi.
  apply lookup_app_Some in Hi as [Hi|[Hlen Hi]].
  - destruct (Hl i m Hi) as [Hs Ha]. split; [exact Hs|].
    intros Hr. destruct (Ha Hr) as [j [u [-> [Hj Hu]]]].
    exists j, u. split; [reflexivity|]. split; [|exact Hu].
    now apply lookup_app_l_Some.
  - destruct (i - length l)%nat; [|discriminate].
    injection Hi as <-. cbn. split; discriminate.
Qed.

Lemma answered_app_answer l text t a t' :
  Api.answered l ->
  Api.answered (l ++ [ {| Server.role := user; Server.message := text;
                          Server.timestamp := t |};
                       {| Server.role := assistant; Server.message := a;
                          Server.timestamp := t' |} ]).
Proof.
  intros Hl.
  change [?x; ?y] with ([x] ++ [y]). rewrite app_assoc.
  pose proof (answered_app_user l text t Hl) as Hu.
  intros i m Hi.
  apply lookup_app_Some in Hi as [Hi|[Hlen Hi]].
  - destruct (Hu i m Hi) as [Hs Ha]. split; [exact Hs|].
    intros Hr. destruct (Ha Hr) as [j [u [-> [Hj Hu']]]].
    exists j, u. split; [reflexivity|]. split; [|exact Hu'].
    now apply lookup_app_l_Some.
  - destruct (i - length (l ++ _))%nat eqn:E; [|discriminate].
    injection Hi as <-. cbn. split; [discriminate|]. intros _.
    rewrite length_app in Hlen, E. cbn in Hlen, E.
    exists (length l), {| Server.role := user; Server.message := text;
                          Server.timestamp := t |}.
    split; [lia|]. split; [|reflexivity].
    rewrite lookup_app_l by (rewrite length_app; cbn; lia).
    rewrite lookup_app_r by lia. now rewrite Nat.sub_diag.
Qed.

(** Whatever requests are served, and whether the pipeline returns or
    raises, no session ever holds a system message, and every answer
    stands right after a user message. *)
Theorem serve_all_answered reqs st :
  (forall sid s, Server.sessions st.2 !! sid = Some s ->
                 Api.answered (Server.messages s)) ->
  forall sid s,
    Server.sessions (Server.serve_all reqs st).2 !! sid = Some s ->
    Api.answered (Server.messages s).
Proof.
  revert st. induction reqs as [|req reqs IH]; intros st Hst; [exact Hst|].
  cbn. apply IH. clear IH reqs. intros sid s.
  destruct req as [cm|i|i]; cbn.
  - destruct (chat_endpoint_sessions cm st) as [s' [ts [Hm [Hmsg [_ [t1 Hts]]]]]].
    rewrite Hm.
    destruct (decide (sid = (Server.session_id_or_new cm st.1).1)) as [->|Hne].
    + rewrite lookup_insert_eq. intros [= <-]. rewrite Hmsg.
      assert (Hold : Api.answered
                (match Server.sessions st.2 !! (Server.session_id_or_new cm st.1).1
                 with Some s0 => Server.messages s0 | None => [] end)).
      { destruct (Server.sessions st.2 !! _) eqn:E;
          [exact (Hst _ _ E) | apply answered_nil]. }
      destruct Hts as [->|[a [t2 ->]]].
      * now apply answered_app_user.
      * now apply answered_app_answer.
    + rewrite lookup_insert_ne by congruence. apply Hst.
  - unfold Server.get_session.
    destruct (Server.sessions st.2 !! i); apply Hst.
  - unfold Server.delete_session.
    destruct (Server.sessions st.2 !! i) eqn:E; [|apply Hst].
    cbn. intros Hl. apply lookup_delete_Some in Hl as [_ Hl].
    exact (Hst sid s Hl).
Qed.

Lemma total_messages_insert_None (m : gmap str Server.Session) i s :
  m !! i = None ->
  Api.total_messages (<[i:=s]> m)
  = (length (Server.messages s) + Api.total_messages m)%nat.
Proof.
  intros Hi. unfold Api.total_messages.
  apply (map_fold_insert_L
           (fun _ s n => (length (Server.messages s) + n)%nat));
    [intros; lia | exact Hi].
Qed.

Lemma total_messages_lookup (m : gmap str Server.Session) i s :
  m !! i = Some s ->
  Api.total_messages m
  = (length (Server.messages s) + Api.total_messages (delete i m))%nat.
Proof.
  intros Hi. unfold Api.total_messages.
  apply (map_fold_delete_L
           (fun _ s n => (length (Server.messages s) + n)%nat));
    [intros; lia | exact Hi].
Qed.

(** Replacing or adding a session changes the total by the difference of
    the lengths. *)
Lemma total_messages_insert (m : gmap str Server.Session) i s :
  (Api.total_messages (<[i:=s]> m)
   + match m !! i with Some s0 => length (Server.messages s0) | None => 0 end
   = length (Server.messages s) + Api.total_messages m)%nat.
Proof.
  destruct (m !! i) as [s0|] eqn:E.
  - rewrite <- (insert_delete_eq m i s).
    rewrite total_messages_insert_None by apply lookup_delete_eq.
    rewrite (total_messages_lookup m i s0 E). lia.
  - rewrite total_messages_insert_None by exact E. lia.
Qed.

Context {T : Type} (get_collection_stats : Rag.MentalHealthRAG -> PyException + T).

(** [GET /stats] counts what the other endpoints did.  A [POST /chat] raises
    the number of messages by two when it succeeds and by one when it
    fails, and the number of sessions by one when its session is new; a
    [DELETE] that succeeds takes one session and all its messages off;
    [GET /stats] itself changes nothing. *)
Theorem get_stats_counts cm session_id st (before after deleted : Api.Stats T) :
  (Api.get_stats get_collection_stats st).1 = inr before ->
  (Api.get_stats get_collection_stats (Server.chat_endpoint cm st).2).1
    = inr after ->
  (Api.get_stats get_collection_stats
     (Server.delete_session session_id st).2).1 = inr deleted ->
  Api.stats_total_messages after
    = (Api.stats_total_messages before
       + match (Server.chat_endpoint cm st).1 with
         | inr _ => 2 | inl _ => 1 end)%nat
  /\ Api.total_sessions after
    = (Api.total_sessions before
       + match Server.sessions st.2 !! (Server.session_id_or_new cm st.1).1
         with Some _ => 0 | None => 1 end)%nat
  /\ (Api.stats_total_messages deleted
      + match Server.sessions st.2 !! session_id with
        | Some s => length (Server.messages s) | None => 0 end
      = Api.stats_total_messages before)%nat
  /\ (Api.total_sessions deleted
      + match Server.sessions st.2 !! session_id with
        | Some _ => 1 | None => 0 end
      = Api.total_sessions before)%nat
  /\ (Api.get_stats get_collection_stats st).2.2 = st.2.
Proof.
  unfold Api.get_stats. cbn [datetime_now fst snd].
  intros Hb Ha Hd.
  assert (Hk : Server.rag_system (Server.delete_session session_id st).2.2
               = Server.rag_system st.2).
  { unfold Server.delete_session.
    now destruct (Server.sessions st.2 !! session_id). }
  rewrite Hk in Hd.
  destruct (get_collection_stats (Server.rag_system st.2)) as [?|kb0];
    [discriminate|].
  destruct (get_collection_stats
              (Server.rag_system (Server.chat_endpoint cm st).2.2)) as [?|kb1];
    [discriminate|].
  cbn in Hb, Ha, Hd. injection Hb as <-. injection Ha as <-. injection Hd as <-.
  cbn [Api.stats_total_messages Api.total_sessions snd].
  split; [|split; [|split; [|split; [|reflexivity]]]].
  - unfold Server.chat_endpoint.
    pose proof (total_messages_insert (Server.sessions st.2)
                  (Server.session_id_or_new cm st.1).1) as Hins.
    destruct (generate (Rag.knowledge (Server.rag_system st.2))
                (Server.cm_message cm)) as [e|data] eqn:Hg.
    + rewrite (chat_body_raises cm st e Hg). cbv zeta.
      cbn [fst snd Server.sessions].
      match goal with |- context [<[_ := ?s]> _] => specialize (Hins s) end.
      cbn [Server.messages] in Hins. rewrite length_app in Hins.
      cbn [length] in Hins.
      destruct (Server.sessions st.2 !! _); cbn in Hins |- *; lia.
    + rewrite (chat_body_returns cm st data Hg). cbv zeta.
      cbn [fst snd Server.sessions].
      match goal with |- context [<[_ := ?s]> _] => specialize (Hins s) end.
      cbn [Server.messages] in Hins. rewrite length_app in Hins.
      cbn [length] in Hins.
      destruct (Server.sessions st.2 !! _); cbn in Hins |- *; lia.
  - destruct (chat_endpoint_sessions cm st) as [s' [ts [Hm _]]].
    rewrite Hm, map_size_insert.
    destruct (Server.sessions st.2 !! _); cbn; lia.
  - unfold Server.delete_session.
    destruct (Server.sessions st.2 !! session_id) as [s|] eqn:E; cbn; [|lia].
    rewrite (total_messages_lookup _ _ _ E). lia.
  - unfold Server.delete_session.
    destruct (Server.sessions st.2 !! session_id) as [s|] eqn:E; cbn; [|lia].
    rewrite map_size_delete, E. cbn.
    assert (size (Server.sessions st.2) <> 0)%nat; [|lia].
    intros Hz. apply map_size_empty_inv in Hz. rewrite Hz in E.
    rewrite lookup_empty in E. discriminate.
Qed.

End ServerShapes.

(* ===================================================================== *)
(** ** The further properties on concrete runs *)
(* ===================================================================== *)

Lemma context_shows_recent_turns_witness :
  0 < 10
  /\ Agent.conversation_history Demo.chatted <> []
  /\ Agent._get_conversation_context 10 Demo.chatted
     = lit "Recent conversation context:" ++ nl
         ++ lit "USER: hi" ++ nl ++ lit "ASSISTANT: hello" ++ nl.
Proof.
  split; [lia|]. split; [discriminate|].
  destruct (context_shows_recent_turns 10 Demo.chatted) as [Hc _];
    [lia | discriminate |].
  rewrite Hc. vm_compute. reflexivity.
Defined.

Lemma run_loop_stops_at_exit_witness :
  Cli.exit_command (lit " /EXIT ") = true
  /\ @Agent.run_loop Demo.env [lit "hello"; lit " /EXIT "; lit "more"]
       Demo.agent0
     = @Agent.run_loop Demo.env [lit "hello"] Demo.agent0.
Proof.
  split; [reflexivity|].
  apply (@run_loop_stops_at_exit Demo.env [lit "hello"] [lit "more"]
           (lit " /EXIT ") Demo.agent0).
  - repeat constructor.
  - reflexivity.
Defined.

Lemma run_context_last_ten_witness :
  Agent._get_conversation_context 10
    (@Agent.run Demo.env [lit "hello"] Demo.agent0).2
  = lit "Recent conversation context:" ++ nl
      ++ lit "USER: hello" ++ nl ++ lit "ASSISTANT: I hear you." ++ nl.
Proof.
  rewrite (@run_context_last_ten Demo.env [lit "hello"] Demo.agent0)
    by (vm_compute; discriminate).
  vm_compute. reflexivity.
Defined.

Lemma chat_endpoint_failure_keeps_message_witness :
  (@Server.chat_endpoint Demo.env_raising Demo.hello Demo.server0).1
    = inl {| Server.status_code := 500;
             Server.detail :=
               lit "Error processing message: connection refused" |}
  /\ exists s' t,
      Server.sessions
        (@Server.chat_endpoint Demo.env_raising Demo.hello Demo.server0).2.2
        !! lit "uuid-0" = Some s'
      /\ Server.messages s'
         = [ {| Server.role := user; Server.message := lit "hello";
                Server.timestamp := t |} ].
Proof.
  apply (@chat_endpoint_failure_keeps_message Demo.env_raising Demo.hello
           Demo.server0 {| exc_str := lit "connection refused" |}).
  reflexivity.
Defined.

Lemma other_sessions_untouched_witness :
  lit "uuid-0" <> lit "other"
  /\ Server.sessions
       (@Server.chat_endpoint Demo.env
          {| Server.cm_message := lit "hi";
             Server.cm_session_id := Some (lit "other") |}
          Demo.server1).2.2 !! lit "uuid-0"
     = Server.sessions Demo.server1.2 !! lit "uuid-0".
Proof.
  split; [discriminate|].
  apply (@other_sessions_untouched Demo.env
           {| Server.cm_message := lit "hi";
              Server.cm_session_id := Some (lit "other") |}
           (lit "other") Demo.server1 (lit "uuid-0")).
  discriminate.
Defined.

Lemma chat_endpoint_append_only_witness :
  exists s s',
    Server.sessions Demo.server1.2 !! lit "uuid-0" = Some s
    /\ Server.sessions
         (@Server.chat_endpoint Demo.env
            {| Server.cm_message := lit "again";
               Server.cm_session_id := Some (lit "uuid-0") |}
            Demo.server1).2.2 !! lit "uuid-0" = Some s'
    /\ Server.created_at s' = Server.created_at s
    /\ Server.messages s `prefix_of` Server.messages s'.
Proof.
  eexists. 
  assert (Hs : Server.sessions Demo.server1.2 !! lit "uuid-0" = Some _)
    by (vm_compute; reflexivity).
  destruct (@chat_endpoint_append_only Demo.env
              {| Server.cm_message := lit "again";
                 Server.cm_session_id := Some (lit "uuid-0") |}
              Demo.server1 (lit "uuid-0") _ Hs) as [s' H'].
  exists s'. split; [exact Hs | exact H'].
Defined.


Lemma chat_after_delete_starts_over_witness :
  exists s,
    Server.sessions
      (@Server.chat_endpoint Demo.env
         {| Server.cm_message := lit "back";
            Server.cm_session_id := Some (lit "uuid-0") |}
         (@Server.delete_session (lit "uuid-0") Demo.server1).2).2.2
      !! lit "uuid-0" = Some s
    /\ Server.transcript (Server.messages s)
       = [(user, lit "back"); (assistant, lit "I hear you.")].
Proof.
  eexists. split.
  - refine (@chat_after_delete_starts_over Demo.env (lit "uuid-0") (lit "back")
              Demo.server1 _ _ _ _ _); [vm_compute | |]; reflexivity.
  - vm_compute. reflexivity.
Defined.

Lemma serve_all_answered_witness :
  exists s,
    Server.sessions
      (@Server.serve_all Demo.env_raising
         [Server.Chat {| Server.cm_message := lit "again";
                         Server.cm_session_id := Some (lit "uuid-0") |};
          Server.DeleteSession (lit "nobody")]
         Demo.server1).2 !! lit "uuid-0" = Some s
    /\ Server.transcript (Server.messages s)
       = [(user, lit "hello"); (assistant, lit "I hear you.");
          (user, lit "again")]
    /\ Api.answered (Server.messages s).
Proof.
  eexists. split; [vm_compute; reflexivity|]. split; [vm_compute; reflexivity|].
  refine (@serve_all_answered Demo.env_raising
            [Server.Chat {| Server.cm_message := lit "again";
                            Server.cm_session_id := Some (lit "uuid-0") |};
             Server.DeleteSession (lit "nobody")]
            Demo.server1 _ (lit "uuid-0") _ _); [|vm_compute; reflexivity].
  apply (@serve_all_answered Demo.env [Server.Chat Demo.hello] Demo.server0).
  intros sid s Hs. cbn in Hs. rewrite lookup_empty in Hs. discriminate.
Defined.

Lemma get_stats_counts_witness :
  exists before after,
    (@Api.get_stats Demo.env nat (fun rag => inr (length (Rag.knowledge rag)))
       Demo.server1).1 = inr before
    /\ (@Api.get_stats Demo.env nat
          (fun rag => inr (length (Rag.knowledge rag)))
          (@Server.chat_endpoint Demo.env
             {| Server.cm_message := lit "again";
                Server.cm_session_id := Some (lit "uuid-0") |}
             Demo.server1).2).1 = inr after
    /\ Api.stats_total_messages before = 2%nat
    /\ Api.stats_total_messages after = 4%nat
    /\ Api.total_sessions after = Api.total_sessions before.
Proof.
  eexists _, _. split; [vm_compute; reflexivity|].
  split; [vm_compute; reflexivity|].
  split; [vm_compute; reflexivity|].
  edestruct (@get_stats_counts Demo.env nat
               (fun rag => inr (length (Rag.knowledge rag)))
               {| Server.cm_message := lit "again";
                  Server.cm_session_id := Some (lit "uuid-0") |}
               (lit "uuid-0") Demo.server1) as [Hm [Hs _]];
    [vm_compute; reflexivity | vm_compute; reflexivity
    | vm_compute; reflexivity |].
  split; [exact Hm | exact Hs].
Defined.

Lemma process_message_failure_keeps_turn_witness :
  (@Agent.process_message Demo.env_raising (lit "hello") Demo.agent0).1
    = inl {| exc_str := lit "connection refused" |}
  /\ Agent.transcript
       (Agent.conversation_history
          (@Agent.process_message Demo.env_raising (lit "hello")
             Demo.agent0).2.2)
     = [(user, lit "hello")].
Proof.
  destruct (@process_message_failure_keeps_turn Demo.env_raising (lit "hello")
              Demo.agent0 {| exc_str := lit "connection refused" |})
    as [He [Hh _]]; [reflexivity | reflexivity |].
  split; [exact He|]. rewrite Hh. reflexivity.
Defined.


Lemma run_greeting_first_witness :
  exists t,
    Agent.conversation_history
      (@Agent.run Demo.env [lit "hello"] Demo.agent0).2 !! 0%nat = Some t
    /\ Agent.role t = system
    /\ Agent.message t = Agent.greeting.
Proof.
  eexists. split; [vm_compute; reflexivity|]. split; [reflexivity|].
  refine (proj2 (@run_greeting_first Demo.env [lit "hello"] Demo.agent0
                   0%nat _ _ _)); [vm_compute|]; reflexivity.
Defined.
